(** * Streamflow pipeline of the caudal repository

    A shallow embedding of the parts of [plot_1960_2025.py],
    [download_and_plot.py] and [extract_rinihue_streamflow.py] that load a
    table, pick the date and streamflow columns, repair missing values,
    choose the rows to plot and write the two output files.

    The scripts are written against pandas.  The pandas operations they call
    ([isna], [ffill], [bfill], [interpolate], [dropna], boolean indexing,
    [select_dtypes], [date_range]) are modelled first, then each script is a
    module holding its functions under their source names. *)

From Stdlib Require Import String Ascii List Bool Arith ZArith QArith Qround Lia.
From Stdlib Require Import Sorting.Sorted.
Import ListNotations.

Local Open Scope string_scope.
Local Open Scope list_scope.
Local Open Scope nat_scope.

(** ** Python strings *)

(** [str.lower()] on the ASCII range; the bytes of other characters are kept
    (the search terms of the scripts only have ASCII letters). *)
Definition lower_ascii (c : ascii) : ascii :=
  let n := nat_of_ascii c in
  if (65 <=? n) && (n <=? 90) then ascii_of_nat (n + 32) else c.

Fixpoint lower (s : string) : string :=
  match s with
  | EmptyString => EmptyString
  | String c r => String (lower_ascii c) (lower r)
  end.

(** [term in s]: [term] occurs in [s] as a substring. *)
Fixpoint contains (term s : string) : bool :=
  prefix term s ||
  match s with
  | EmptyString => false
  | String _ r => contains term r
  end.

(** [any(term in s for term in terms)] *)
Definition any_in (terms : list string) (s : string) : bool :=
  existsb (fun term => contains term s) terms.

Fixpoint string_rev (s : string) : string :=
  match s with
  | EmptyString => EmptyString
  | String c r => (string_rev r ++ String c EmptyString)%string
  end.

(** [s.endswith(suffix)] *)
Definition endswith (s suffix : string) : bool :=
  prefix (string_rev suffix) (string_rev s).

(** [s.strip().startswith(p)]: only the leading blanks matter.  The blanks
    are those of ASCII; Python takes the blanks of Unicode as well. *)
Definition is_space (c : ascii) : bool :=
  let n := nat_of_ascii c in
  (n =? 32) || ((9 <=? n) && (n <=? 13)) || ((28 <=? n) && (n <=? 31)).

Fixpoint lstrip (s : string) : string :=
  match s with
  | String c r => if is_space c then lstrip r else s
  | EmptyString => EmptyString
  end.

(** [x in l] for a list of strings. *)
Definition mem (x : string) (l : list string) : bool :=
  existsb (String.eqb x) l.

(** [l.remove(x)]: the first occurrence goes. *)
Fixpoint remove_first (x : string) (l : list string) : list string :=
  match l with
  | [] => []
  | y :: r => if String.eqb x y then r else y :: remove_first x r
  end.

(** ** Exceptions *)

Inductive exn : Type :=
| KeyError
| ValueError
| TypeError
| OSError.

Inductive result (A : Type) : Type :=
| Ok (a : A)
| Raise (e : exn).
Arguments Ok {A} a.
Arguments Raise {A} e.

Definition bind {A B} (m : result A) (k : A -> result B) : result B :=
  match m with
  | Ok a => k a
  | Raise e => Raise e
  end.

Notation "x <- m ;; k" := (bind m (fun x => k))
  (at level 61, m at next level, right associativity).

(** ** The pandas data model *)

(** A column read by [read_csv] is a column of numbers ([float64], or an
    integer column, which has no missing entry) or of objects (strings).
    Floats are idealised as rationals; a missing entry ([NaN], [None]) is
    [None]. *)
Inductive Series : Type :=
| FloatSeries (xs : list (option Q))
| ObjectSeries (xs : list (option string)).

Record Column : Type := mkColumn { name : string; data : Series }.

(** A frame has a row index (the labels of its rows; [read_csv] gives
    [0 .. n-1]) and named columns in order. *)
Record DataFrame : Type := mkFrame { index : list nat; columns : list Column }.

(** [len(df)] *)
Definition len (df : DataFrame) : nat := length (index df).

Definition series_len (s : Series) : nat :=
  match s with
  | FloatSeries xs => length xs
  | ObjectSeries xs => length xs
  end.

Definition column_names (df : DataFrame) : list string :=
  map name (columns df).

Definition is_none {A} (x : option A) : bool :=
  match x with None => true | Some _ => false end.

(** [s.isna()] and its negation *)
Definition isna (s : Series) : list bool :=
  match s with
  | FloatSeries xs => map is_none xs
  | ObjectSeries xs => map is_none xs
  end.

Definition notna (s : Series) : list bool := map negb (isna s).

(** [s.isna().sum()] *)
Definition count_true (l : list bool) : nat := length (filter (fun b => b) l).

Definition isna_sum (s : Series) : nat := count_true (isna s).

(** [s.isna().all()]: true on an empty series. *)
Definition isna_all (s : Series) : bool := forallb (fun b => b) (isna s).

(** *** Filling *)

(** [ffill]: each missing entry takes the last valid value before it;
    [last] is that value while walking down the column. *)
Fixpoint ffill_from {A} (last : option A) (xs : list (option A))
  : list (option A) :=
  match xs with
  | [] => []
  | Some v :: r => Some v :: ffill_from (Some v) r
  | None :: r => last :: ffill_from last r
  end.

Definition ffill_list {A} (xs : list (option A)) : list (option A) :=
  ffill_from None xs.

(** [bfill]: each missing entry takes the next valid value after it. *)
Fixpoint bfill_list {A} (xs : list (option A)) : list (option A) :=
  match xs with
  | [] => []
  | x :: r =>
      let r' := bfill_list r in
      match x with
      | Some v => Some v :: r'
      | None => hd None r' :: r'
      end
  end.

Definition ffill (s : Series) : Series :=
  match s with
  | FloatSeries xs => FloatSeries (ffill_list xs)
  | ObjectSeries xs => ObjectSeries (ffill_list xs)
  end.

Definition bfill (s : Series) : Series :=
  match s with
  | FloatSeries xs => FloatSeries (bfill_list xs)
  | ObjectSeries xs => ObjectSeries (bfill_list xs)
  end.

(** *** Linear interpolation *)

(** The run of missing entries at the head of [xs] and the valid value that
    ends it, if there is one. *)
Fixpoint next_valid (xs : list (option Q)) : option (nat * Q) :=
  match xs with
  | [] => None
  | Some v :: _ => Some (0, v)
  | None :: r =>
      match next_valid r with
      | Some (m, v) => Some (S m, v)
      | None => None
      end
  end.

Definition Qnat (n : nat) : Q := inject_Z (Z.of_nat n).

(** The point at step [i] of [n] equal steps on the line from [a] to [b]. *)
Definition lerp (a b : Q) (i n : nat) : Q :=
  Qred (a + (b - a) * Qnat i / Qnat n).

(** [interpolate(method='linear')] with its defaults
    ([limit_direction='forward'], no [limit_area]): rows count as equally
    spaced; a gap between two valid values is filled on the line between
    them, a gap after the last valid value repeats it, and a gap before the
    first valid value stays.  [prev] is the last valid value seen and [k]
    the number of missing entries since. *)
Fixpoint interpolate_from (prev : option Q) (k : nat) (xs : list (option Q))
  : list (option Q) :=
  match xs with
  | [] => []
  | Some v :: r => Some v :: interpolate_from (Some v) 0 r
  | None :: r =>
      match prev with
      | None => None
      | Some a =>
          match next_valid r with
          | Some (m, b) => Some (lerp a b (S k) (k + m + 2))
          | None => Some a
          end
      end :: interpolate_from prev (S k) r
  end.

Definition interpolate_linear (xs : list (option Q)) : list (option Q) :=
  interpolate_from None 0 xs.

(** On an object column pandas 2 hands the data back as it is (with a
    deprecation warning), and pandas 3 raises [TypeError].  [clean_data]
    comes here with an object column only when every entry of it is
    missing; where a statement reaches that call, it is of a column of
    floats, of a frame that was returned, or of two scripts doing the
    same. *)
Definition interpolate (s : Series) : Series :=
  match s with
  | FloatSeries xs => FloatSeries (interpolate_linear xs)
  | ObjectSeries xs => ObjectSeries xs
  end.

(** *** Indexing *)

(** [a[mask]] for a boolean mask of the length of [a]. *)
Fixpoint select {A} (mask : list bool) (l : list A) : list A :=
  match mask, l with
  | b :: m, x :: r => if b then x :: select m r else select m r
  | _, _ => []
  end.

Definition select_series (mask : list bool) (s : Series) : Series :=
  match s with
  | FloatSeries xs => FloatSeries (select mask xs)
  | ObjectSeries xs => ObjectSeries (select mask xs)
  end.

(** [df[mask]]: the rows where the mask holds, in order, with their labels. *)
Definition take_rows (mask : list bool) (df : DataFrame) : DataFrame :=
  mkFrame (select mask (index df))
          (map (fun c => mkColumn (name c) (select_series mask (data c)))
               (columns df)).

(** [df[col]]: [KeyError] when no column has the name; with several columns
    of the name pandas returns a frame, on which the scalar tests of the
    scripts raise [ValueError] ([plot_1960_2025.py] raises [TypeError] one
    line earlier, when it prints the share of missing values); which of
    the two it is does not matter to what is stated. *)
Definition getitem (df : DataFrame) (col : string) : result Series :=
  match filter (fun c => String.eqb (name c) col) (columns df) with
  | [] => Raise KeyError
  | [c] => Ok (data c)
  | _ => Raise ValueError
  end.

(** [df[col] = s] for a column that exists: the data is replaced where the
    column stands; otherwise the column is appended. *)
Fixpoint set_column (cols : list Column) (col : string) (s : Series)
  : list Column :=
  match cols with
  | [] => [mkColumn col s]
  | c :: r =>
      if String.eqb (name c) col then mkColumn col s :: r
      else c :: set_column r col s
  end.

Definition setitem (df : DataFrame) (col : string) (s : Series) : DataFrame :=
  mkFrame (index df) (set_column (columns df) col s).

(** [df.dropna(subset=[col])] *)
Definition dropna (df : DataFrame) (col : string) : result DataFrame :=
  s <- getitem df col ;;
  Ok (take_rows (notna s) df).

(** [df.select_dtypes(include=['number']).columns.tolist()] *)
Definition is_number (s : Series) : bool :=
  match s with FloatSeries _ => true | ObjectSeries _ => false end.

Definition numeric_columns (df : DataFrame) : list string :=
  map name (filter (fun c => is_number (data c)) (columns df)).

(** A frame as pandas builds it: every column has one entry per row and no
    two columns share a name. *)
Fixpoint unique (l : list string) : bool :=
  match l with
  | [] => true
  | x :: r => negb (mem x r) && unique r
  end.

Definition rectangular (df : DataFrame) : bool :=
  forallb (fun c => series_len (data c) =? len df) (columns df).

Definition well_formed (df : DataFrame) : bool :=
  rectangular df && unique (column_names df).

(** *** Rows *)

(** The entries of a frame read row by row: the label of each row with its
    entries in column order. *)
Inductive cell : Type :=
| Number (q : Q)
| Text (s : string).

Definition cells (s : Series) : list (option cell) :=
  match s with
  | FloatSeries xs => map (option_map Number) xs
  | ObjectSeries xs => map (option_map Text) xs
  end.

Definition Row : Type := (nat * list (option cell))%type.

Fixpoint rows_of (idx : list nat) (cols : list (list (option cell)))
  : list Row :=
  match idx with
  | [] => []
  | i :: r => (i, map (hd None) cols) :: rows_of r (map (@tl _) cols)
  end.

Definition rows (df : DataFrame) : list Row :=
  rows_of (index df) (map (fun c => cells (data c)) (columns df)).

(** [l] is [l'] with some elements left out, the others in their order. *)
Inductive subseq {A : Type} : list A -> list A -> Prop :=
| subseq_nil : subseq [] []
| subseq_skip x l l' : subseq l l' -> subseq l (x :: l')
| subseq_keep x l l' : subseq l l' -> subseq (x :: l) (x :: l').

(** [ys] is [xs] with missing entries filled in: the valid entries of [xs]
    stand where they were. *)
Definition fills {A} (xs ys : list (option A)) : Prop :=
  Forall2 (fun x y => forall v, x = Some v -> y = Some v) xs ys.

Definition repairs (s s' : Series) : Prop :=
  match s, s' with
  | FloatSeries xs, FloatSeries ys => fills xs ys
  | ObjectSeries xs, ObjectSeries ys => fills xs ys
  | _, _ => False
  end.

(** The first and the last entry of a column are valid. *)
Definition first_valid (s : Series) : bool :=
  match isna s with
  | b :: _ => negb b
  | [] => false
  end.

Definition last_valid (s : Series) : bool :=
  match rev (isna s) with
  | b :: _ => negb b
  | [] => false
  end.

(** *** Timestamps *)

(** A timestamp is a number of nanoseconds since 1970-01-01, as in
    [datetime64[ns]]; [NaT] is [None]. *)
Definition Timestamp : Type := Z.

Definition ns_per_day : Z := 86400000000000.

(** Days from 1970-01-01 to the civil date [y]-[m]-[d] (proleptic
    Gregorian calendar). *)
Definition days_from_civil (y m d : Z) : Z :=
  let y' := if (m <=? 2)%Z then (y - 1)%Z else y in
  let era := (y' / 400)%Z in
  let yoe := (y' - era * 400)%Z in
  let mp := if (2 <? m)%Z then (m - 3)%Z else (m + 9)%Z in
  let doy := ((153 * mp + 2) / 5 + d - 1)%Z in
  let doe := (yoe * 365 + yoe / 4 - yoe / 100 + doy)%Z in
  (era * 146097 + doe - 719468)%Z.

(** [pd.Timestamp('y-m-d')]: midnight of that day. *)
Definition timestamp (y m d : Z) : Timestamp :=
  (days_from_civil y m d * ns_per_day)%Z.

(** [pd.date_range(start=start, periods=periods, freq='D')].  pandas 2
    keeps a timestamp in 64-bit nanoseconds and raises
    [OutOfBoundsDatetime] for a range that passes 2262-04-11, which is
    110404 days after 1960-01-01; what is stated of the generated dates
    themselves is stated of frames with at most 100000 rows. *)
Definition date_range (start : Timestamp) (periods : nat)
  : list (option Timestamp) :=
  map (fun i => Some (start + Z.of_nat i * ns_per_day)%Z) (seq 0 periods).

(** [dates] has [n] entries, one per day from [start] on. *)
Definition daily_from (start : Timestamp) (n : nat)
    (dates : list (option Timestamp)) : Prop :=
  length dates = n /\
  forall i, i < n ->
    nth_error dates i = Some (Some (start + Z.of_nat i * ns_per_day)%Z).

(** The timestamps pandas 2 holds: 64-bit nanoseconds around 1970-01-01,
    the least 64-bit value standing for [NaT]. *)
Definition timestamp_max : Z := 9223372036854775807.

Definition representable (t : option Timestamp) : bool :=
  match t with
  | Some t => (- timestamp_max <=? t)%Z && (t <=? timestamp_max)%Z
  | None => true
  end.

(** [dates.isna().all()] *)
Definition all_nat (dates : list (option Timestamp)) : bool :=
  forallb is_none dates.

(** [dates.dropna()] *)
Fixpoint valid_dates (dates : list (option Timestamp)) : list Timestamp :=
  match dates with
  | [] => []
  | Some t :: r => t :: valid_dates r
  | None :: r => valid_dates r
  end.

(** ** The outside world *)

Inductive encoding : Type := utf8 | latin1.
Inductive separator : Type := comma | tab | whitespace.
Inductive engine : Type := default_engine | openpyxl.

(** One call of a pandas reader.  [InstallThenReadExcel] is the second
    [read_excel] of [load_data_from_file], made after [pip install openpyxl]. *)
Inductive attempt : Type :=
| ReadExcel (e : engine)
| InstallThenReadExcel
| ReadCsv (sep : separator) (enc : encoding).

(** What a reader may answer besides a frame; [CouldNotRead] is the
    [ValueError] a loader raises itself. *)
Inductive read_error : Type :=
| ImportError
| InstallError
| DecodeError
| ParserError
| CouldNotRead.

(** The files on disk and the readers, seen from a script: whether a path
    exists, what a reader makes of a file, whether a path can be written. *)
Record World : Type := mkWorld {
  path_exists : string -> bool;
  read_head : string -> option string;
  read : attempt -> string -> DataFrame + read_error;
  downloaded : option string;
  can_write : string -> bool
}.

(** A computation that logs the reader calls it makes. *)
Definition Traced (A : Type) : Type := list attempt * A.

(** [try: df = reader(filepath)] *)
Definition try_read (w : World) (a : attempt) (filepath : string)
  : Traced (DataFrame + read_error) :=
  ([a], read w a filepath).

(** [try: body except: handler], for a bare [except] *)
Definition or_else {A E} (body : Traced (A + E)) (handler : Traced (A + E))
  : Traced (A + E) :=
  match body with
  | (t, inl a) => (t, inl a)
  | (t, inr _) => let (t', r) := handler in (t ++ t', r)
  end.

(** [raise ValueError(...)] in the last handler of a chain *)
Definition raise_value_error {A} : Traced (A + read_error) :=
  ([], inr CouldNotRead).

(** What a chart shows, and the files a run has written. *)
Record Stats : Type := mkStats {
  stat_records : nat;
  stat_min : option Q;
  stat_max : option Q;
  stat_mean : option Q;
  stat_median : option Q
}.

Record Plot : Type := mkPlot {
  plot_dates : list (option Timestamp);
  plot_values : Series;
  plot_span : option (Timestamp * Timestamp);
  plot_stats : Stats
}.

Record Files : Type := mkFiles {
  cleaned_csv : option DataFrame;
  plot_png : option Plot
}.

Definition no_files : Files := mkFiles None None.

(** How a run ends: [main] returns its exit code, or an exception leaves
    it. *)
Inductive outcome : Type :=
| Exit (code : nat)
| Uncaught (e : exn).

(** [df.to_csv(path, index=False)] *)
Definition to_csv (w : World) (fs : Files) (path : string) (df : DataFrame)
  : result Files :=
  if can_write w path then Ok (mkFiles (Some df) (plot_png fs))
  else Raise OSError.

(** [plt.savefig(path, ...)] *)
Definition savefig (w : World) (fs : Files) (path : string) (p : Plot)
  : result Files :=
  if can_write w path then Ok (mkFiles (cleaned_csv fs) (Some p))
  else Raise OSError.

(** *** Column statistics *)

Fixpoint valid_values {A} (xs : list (option A)) : list A :=
  match xs with
  | [] => []
  | Some v :: r => v :: valid_values r
  | None :: r => valid_values r
  end.

Definition Qmin' (a b : Q) : Q := if Qle_bool a b then a else b.
Definition Qmax' (a b : Q) : Q := if Qle_bool a b then b else a.

Fixpoint insert_sorted (x : Q) (l : list Q) : list Q :=
  match l with
  | [] => [x]
  | y :: r => if Qle_bool x y then x :: l else y :: insert_sorted x r
  end.

Definition sort_values (l : list Q) : list Q :=
  fold_right insert_sorted [] l.

(** [s.min()], [s.max()], [s.mean()], [s.median()] skip the missing entries
    and are [nan] ([None]) when nothing is left. *)
Definition series_min (l : list Q) : option Q :=
  match l with [] => None | x :: r => Some (fold_left Qmin' r x) end.

Definition series_max (l : list Q) : option Q :=
  match l with [] => None | x :: r => Some (fold_left Qmax' r x) end.

Definition series_mean (l : list Q) : option Q :=
  match l with
  | [] => None
  | _ => Some (Qred (fold_left Qplus l 0%Q / Qnat (length l)))
  end.

Definition series_median (l : list Q) : option Q :=
  let s := sort_values l in
  let n := length s in
  match n with
  | 0 => None
  | _ =>
      if Nat.even n
      then Some (Qred ((nth (n / 2 - 1) s 0%Q + nth (n / 2) s 0%Q) / 2))
      else Some (nth (n / 2) s 0%Q)
  end.

(** The numbers of the statistics box, each formatted with [:.2f].  The
    minimum of a column of strings is a string, and [:.2f] on a string
    raises [ValueError]. *)
Definition describe (with_median : bool) (records : nat) (s : Series)
  : result Stats :=
  match s with
  | FloatSeries xs =>
      let vs := valid_values xs in
      Ok (mkStats records (series_min vs) (series_max vs) (series_mean vs)
                  (if with_median then series_median vs else None))
  | ObjectSeries xs =>
      match valid_values xs with
      | [] => Ok (mkStats records None None None None)
      | _ :: _ => Raise ValueError
      end
  end.

(** ** Lines the scripts share

    [plot_1960_2025.py] and [download_and_plot.py] have the same
    [create_plot] up to the median in the statistics box. *)
Module Common.

Definition window_start : Timestamp := timestamp 1960 1 1.
Definition window_end : Timestamp := timestamp 2025 12 31.

(** [(dates >= pd.Timestamp('1960-01-01')) & (dates <= pd.Timestamp('2025-12-31'))];
    a comparison with [NaT] is false. *)
Definition in_window (t : option Timestamp) : bool :=
  match t with
  | Some t => (window_start <=? t)%Z && (t <=? window_end)%Z
  | None => false
  end.

Definition window_mask (dates : list (option Timestamp)) : list bool :=
  map in_window dates.

(** Truth value of a column label in [if date_col and ...]. *)
Definition truthy (col : option string) : bool :=
  match col with
  | Some s => negb (String.eqb s EmptyString)
  | None => false
  end.

Section Dates.

(** [pd.to_datetime(series, errors='coerce')]: one timestamp per entry,
    [NaT] where the entry does not parse.  The timestamps have no time
    zone, as the bounds of the window have none; pandas does not compare
    the two kinds. *)
Variable to_datetime : Series -> list (option Timestamp).

(** "Process dates" *)
Definition process_dates (df : DataFrame) (date_col : option string)
  : result (list (option Timestamp)) :=
  match date_col with
  | Some d =>
      if truthy date_col && mem d (column_names df) then
        s <- getitem df d ;;
        Ok (to_datetime s)
      else Ok (date_range (timestamp 1960 1 1) (len df))
  | None => Ok (date_range (timestamp 1960 1 1) (len df))
  end.

(** "Filter to 1960-2025 range" *)
Definition filter_window (df : DataFrame) (dates : list (option Timestamp))
  : DataFrame * list (option Timestamp) :=
  if negb (all_nat dates) then
    let mask := window_mask dates in
    let df_plot := take_rows mask df in
    let dates_plot := select mask dates in
    if len df_plot =? 0 then (df, dates) else (df_plot, dates_plot)
  else (df, dates).

(** "Get actual date range": the first and last valid date plotted;
    without one the title keeps the fixed years 1960-2025. *)
Definition date_span (dates_plot : list (option Timestamp))
  : option (Timestamp * Timestamp) :=
  if (0 <? length dates_plot) && negb (all_nat dates_plot) then
    match valid_dates dates_plot with
    | [] => None
    | t :: r => Some (fold_left Z.min r t, fold_left Z.max r t)
    end
  else None.

(** [create_plot]: dates, window, statistics box, then the file. *)
Definition create_plot (with_median : bool) (plot_file : string)
    (w : World) (fs : Files)
    (df : DataFrame) (date_col : option string) (streamflow_col : string)
  : Files * result unit :=
  match
    dates <- process_dates df date_col ;;
    let (df_plot, dates_plot) := filter_window df dates in
    values <- getitem df_plot streamflow_col ;;
    stats <- describe with_median (len df_plot) values ;;
    savefig w fs plot_file
            (mkPlot dates_plot values (date_span dates_plot) stats)
  with
  | Ok fs' => (fs', Ok tt)
  | Raise e => (fs, Raise e)
  end.

End Dates.

End Common.

(** ** plot_1960_2025.py *)
Module Plot19602025.

Definition DATA_FILES : list string :=
  ["data/rinihue_streamflow.xlsx";
   "rinihue_streamflow_cleaned.csv";
   "data/rinihue_streamflow.csv"].
Definition PLOT_FILE : string := "rinihue_streamflow_plot_1960_2025.png".
Definition OUTPUT_CSV : string := "rinihue_streamflow_cleaned_1960_2025.csv".

Definition find_data_file (w : World) : option string :=
  find (path_exists w) DATA_FILES.

(** Any exception inside the outer [try] ends in [return None]; so does a
    file named [.xlsx] whose text starts with an opening brace. *)
Definition load_data (w : World) (filepath : string)
  : Traced (option DataFrame) :=
  if endswith filepath ".xlsx" then
    match read_head w filepath with
    | None => ([], None)
    | Some content =>
        if prefix "{" (lstrip content) then ([], None)
        else
          match or_else (try_read w (ReadExcel openpyxl) filepath)
                        (try_read w (ReadExcel default_engine) filepath) with
          | (t, inl df) => (t, Some df)
          | (t, inr _) => (t, None)
          end
    end
  else
    match try_read w (ReadCsv comma utf8) filepath with
    | (t, inl df) => (t, Some df)
    | (t, inr _) => (t, None)
    end.

Definition date_terms : list string :=
  ["date"; "time"; "fecha"; "dia"; "fecha"].
Definition flow_terms : list string :=
  ["q"; "streamflow"; "flow"; "caudal"; "m3s"; "m³/s"; "discharge"; "valor"].
Definition exclude : list string :=
  ["longitud"; "latitud"; "lon"; "lat"; "x"; "y"].

Definition identify_columns (df : DataFrame) : option string * option string :=
  let date_col :=
    find (fun col => any_in date_terms (lower col)) (column_names df) in
  let streamflow_col :=
    find (fun col =>
            let col_lower := lower col in
            any_in flow_terms col_lower
            && (negb (contains "longitud" col_lower)
                && negb (contains "latitud" col_lower)))
         (column_names df) in
  let streamflow_col :=
    match streamflow_col with
    | Some col => Some col
    | None =>
        let numeric_cols := numeric_columns df in
        let numeric_cols :=
          match date_col with
          | Some d =>
              if Common.truthy date_col && mem d numeric_cols
              then remove_first d numeric_cols else numeric_cols
          | None => numeric_cols
          end in
        let numeric_cols :=
          filter (fun col => negb (mem (lower col) exclude)) numeric_cols in
        hd_error numeric_cols
    end in
  (date_col, streamflow_col).

(** The share of missing values is only printed.  [missing_count] is a
    numpy integer, so on an empty frame the division gives [nan] (with a
    warning), not [ZeroDivisionError]. *)
Definition missing_percent (missing_count total : nat) : option Q :=
  match total with
  | 0 => None
  | _ => Some (Qred (Qnat missing_count / Qnat total * 100))
  end.

Definition clean_data (df : DataFrame) (streamflow_col : string)
  : result DataFrame :=
  let df_clean := df in
  s <- getitem df_clean streamflow_col ;;
  let missing_count := isna_sum s in
  let _ := missing_percent missing_count (len df_clean) in
  if 0 <? missing_count then
    s <- getitem df_clean streamflow_col ;;
    let df_clean := setitem df_clean streamflow_col (bfill (ffill s)) in
    s <- getitem df_clean streamflow_col ;;
    let remaining := isna_sum s in
    df_clean <-
      (if 0 <? remaining then
         s <- getitem df_clean streamflow_col ;;
         Ok (setitem df_clean streamflow_col (interpolate s))
       else Ok df_clean) ;;
    dropna df_clean streamflow_col
  else Ok df_clean.

Definition create_plot to_datetime := Common.create_plot to_datetime true PLOT_FILE.

Definition main (to_datetime : Series -> list (option Timestamp)) (w : World)
  : Files * outcome :=
  let fs := no_files in
  match find_data_file w with
  | None => (fs, Exit 1)
  | Some data_file =>
  match snd (load_data w data_file) with
  | None => (fs, Exit 1)
  | Some df =>
  let (date_col, streamflow_col) := identify_columns df in
  match streamflow_col with
  | None => (fs, Exit 1)
  | Some streamflow_col =>
  match clean_data df streamflow_col with
  | Raise e => (fs, Uncaught e)
  | Ok df_clean =>
  match to_csv w fs OUTPUT_CSV df_clean with
  | Raise e => (fs, Uncaught e)
  | Ok fs =>
  match create_plot to_datetime w fs df_clean date_col streamflow_col with
  | (fs, Raise e) => (fs, Uncaught e)
  | (fs, Ok _) => (fs, Exit 0)
  end end end end end end.

End Plot19602025.

(** ** download_and_plot.py *)
Module DownloadAndPlot.

Definition PLOT_FILE : string := "rinihue_streamflow_plot_1960_2025.png".
Definition OUTPUT_CSV : string := "rinihue_streamflow_cleaned_1960_2025.csv".

(** The request and the download are the world's: [download_data] returns
    the path it saved the payload under, or [None]. *)
Definition download_data (w : World) : option string := downloaded w.

Definition load_and_process_data (w : World) (filepath : string)
  : Traced (option DataFrame) :=
  match
    (if endswith filepath ".xlsx" then try_read w (ReadExcel openpyxl) filepath
     else or_else (try_read w (ReadCsv comma utf8) filepath)
                  (try_read w (ReadCsv comma latin1) filepath))
  with
  | (t, inl df) => (t, Some df)
  | (t, inr _) => (t, None)
  end.

Definition date_terms : list string :=
  ["date"; "time"; "fecha"; "fecha"; "dia"].
Definition flow_terms : list string :=
  ["q"; "streamflow"; "flow"; "caudal"; "m3s"; "m³/s"; "discharge"].

Definition identify_columns (df : DataFrame) : option string * option string :=
  let date_col :=
    find (fun col => any_in date_terms (lower col)) (column_names df) in
  let streamflow_col :=
    find (fun col => any_in flow_terms (lower col)) (column_names df) in
  let streamflow_col :=
    match streamflow_col with
    | Some col => Some col
    | None =>
        let numeric_cols := numeric_columns df in
        let numeric_cols :=
          match date_col with
          | Some d =>
              if Common.truthy date_col && mem d numeric_cols
              then remove_first d numeric_cols else numeric_cols
          | None => numeric_cols
          end in
        hd_error numeric_cols
    end in
  (date_col, streamflow_col).

Definition clean_data (df : DataFrame) (streamflow_col : string)
  : result DataFrame :=
  let df_clean := df in
  s <- getitem df_clean streamflow_col ;;
  let missing_count := isna_sum s in
  if 0 <? missing_count then
    s <- getitem df_clean streamflow_col ;;
    let df_clean := setitem df_clean streamflow_col (bfill (ffill s)) in
    df_clean <-
      (s <- getitem df_clean streamflow_col ;;
       if 0 <? isna_sum s then
         s <- getitem df_clean streamflow_col ;;
         Ok (setitem df_clean streamflow_col (interpolate s))
       else Ok df_clean) ;;
    dropna df_clean streamflow_col
  else Ok df_clean.

Definition create_plot to_datetime := Common.create_plot to_datetime false PLOT_FILE.

Definition main (to_datetime : Series -> list (option Timestamp)) (w : World)
  : Files * outcome :=
  let fs := no_files in
  match download_data w with
  | None => (fs, Exit 1)
  | Some data_file =>
  match snd (load_and_process_data w data_file) with
  | None => (fs, Exit 1)
  | Some df =>
  let (date_col, streamflow_col) := identify_columns df in
  match streamflow_col with
  | None => (fs, Exit 1)
  | Some streamflow_col =>
  match clean_data df streamflow_col with
  | Raise e => (fs, Uncaught e)
  | Ok df_clean =>
  match to_csv w fs OUTPUT_CSV df_clean with
  | Raise e => (fs, Uncaught e)
  | Ok fs =>
  match create_plot to_datetime w fs df_clean date_col streamflow_col with
  | (fs, Raise e) => (fs, Uncaught e)
  | (fs, Ok _) => (fs, Exit 0)
  end end end end end end.

End DownloadAndPlot.

(** ** extract_rinihue_streamflow.py *)
Module ExtractRinihue.

Definition load_data_from_file (w : World) (filepath : string)
  : Traced (DataFrame + read_error) :=
  if endswith filepath ".xlsx" || endswith filepath ".xls" then
    match try_read w (ReadExcel openpyxl) filepath with
    | (t, inl df) => (t, inl df)
    | (t, inr ImportError) =>
        let (t', r) := try_read w InstallThenReadExcel filepath in
        (t ++ t', r)
    | (t, inr _) =>
        let (t', r) := or_else (try_read w (ReadExcel default_engine) filepath)
                               raise_value_error in
        (t ++ t', r)
    end
  else
    or_else (try_read w (ReadCsv comma utf8) filepath)
   (or_else (try_read w (ReadCsv comma latin1) filepath)
   (or_else (try_read w (ReadCsv tab utf8) filepath)
   (or_else (try_read w (ReadCsv whitespace utf8) filepath)
            raise_value_error))).

(** "Identify streamflow column" of [clean_data]: the first column with one
    of the terms in its name, else the first numeric column whose name has
    neither "date" nor "time" in it, else [ValueError]. *)
Definition identify_streamflow_column (df : DataFrame) : result string :=
  match
    find (fun col =>
            let col_lower := lower col in
            contains "q" col_lower || contains "streamflow" col_lower
            || contains "flow" col_lower || contains "discharge" col_lower
            || contains "m3s" col_lower)
         (column_names df)
  with
  | Some col => Ok col
  | None =>
      let numeric_cols := numeric_columns df in
      let date_cols :=
        filter (fun col => contains "date" (lower col)
                           || contains "time" (lower col))
               (column_names df) in
      let numeric_cols :=
        filter (fun col => negb (mem col date_cols)) numeric_cols in
      match numeric_cols with
      | col :: _ => Ok col
      | [] => Raise ValueError
      end
  end.

(** [clean_data(df)]: it finds the column itself and repairs it whether or
    not something is missing. *)
Definition clean_data (df : DataFrame) : result (DataFrame * string) :=
  let df_clean := df in
  streamflow_col <- identify_streamflow_column df_clean ;;
  s <- getitem df_clean streamflow_col ;;
  let missing_count := isna_sum s in
  s <- getitem df_clean streamflow_col ;;
  let df_clean := setitem df_clean streamflow_col (bfill (ffill s)) in
  s <- getitem df_clean streamflow_col ;;
  df_clean <-
    (if 0 <? isna_sum s then
       s <- getitem df_clean streamflow_col ;;
       Ok (setitem df_clean streamflow_col (interpolate s))
     else Ok df_clean) ;;
  df_clean <- dropna df_clean streamflow_col ;;
  _ <- getitem df_clean streamflow_col ;;
  Ok (df_clean, streamflow_col).

Section Dates.

Variable to_datetime : Series -> list (option Timestamp).

(** "Identify date column" *)
Definition identify_date_column (df : DataFrame) : option string :=
  find (fun col =>
          let col_lower := lower col in
          contains "date" col_lower || contains "time" col_lower
          || contains "fecha" col_lower)
       (column_names df).

(** The dates of [create_plot]: generated when no column is found, or when
    nothing in the column parses. *)
Definition plot_dates (df : DataFrame) (date_col : option string)
  : result (list (option Timestamp)) :=
  match date_col with
  | None =>
      let start_date :=
        if (20000 <? Z.of_nat (len df))%Z
        then timestamp 1960 1 1 else timestamp 1970 1 1 in
      Ok (date_range start_date (len df))
  | Some d =>
      s <- getitem df d ;;
      let dates := to_datetime s in
      if all_nat dates then Ok (date_range (timestamp 1960 1 1) (len df))
      else Ok dates
  end.

(** "Filter data to 1960-2025 range if dates are available" *)
Definition filter_window (df : DataFrame) (date_col : option string)
    (dates : list (option Timestamp))
  : DataFrame * list (option Timestamp) :=
  if Common.truthy date_col && negb (all_nat dates) then
    let mask := Common.window_mask dates in
    let df_plot := take_rows mask df in
    let dates_plot := select mask dates in
    if len df_plot =? 0 then (df, dates) else (df_plot, dates_plot)
  else (df, dates).

End Dates.

End ExtractRinihue.

(** ** Example data *)

(** A reader of [YYYY-MM-DD] strings, standing for [pd.to_datetime] in the
    examples; numbers are nanoseconds since 1970-01-01. *)
Definition digit (c : ascii) : option Z :=
  let n := nat_of_ascii c in
  if (48 <=? n) && (n <=? 57) then Some (Z.of_nat (n - 48)) else None.

Fixpoint digits (s : string) (acc : Z) : option Z :=
  match s with
  | EmptyString => Some acc
  | String c r =>
      match digit c with
      | Some d => digits r (acc * 10 + d)%Z
      | None => None
      end
  end.

Definition is_leap (y : Z) : bool :=
  ((y mod 4 =? 0) && negb (y mod 100 =? 0) || (y mod 400 =? 0))%Z.

Definition days_in_month (y m : Z) : Z :=
  if (m =? 2)%Z then (if is_leap y then 29 else 28)%Z
  else if ((m =? 4) || (m =? 6) || (m =? 9) || (m =? 11))%Z then 30%Z
  else 31%Z.

Definition parse_iso_date (s : string) : option Timestamp :=
  if (String.length s =? 10)
     && String.eqb (substring 4 1 s) "-" && String.eqb (substring 7 1 s) "-"
  then
    match digits (substring 0 4 s) 0, digits (substring 5 2 s) 0,
          digits (substring 8 2 s) 0 with
    | Some y, Some m, Some d =>
        if ((1 <=? m) && (m <=? 12) && (1 <=? d)
            && (d <=? days_in_month y m))%Z
        then Some (timestamp y m d) else None
    | _, _, _ => None
    end
  else None.

Definition iso_to_datetime (s : Series) : list (option Timestamp) :=
  match s with
  | ObjectSeries xs =>
      map (fun x => match x with Some str => parse_iso_date str | None => None end) xs
  | FloatSeries xs => map (option_map Qfloor) xs
  end.

(** The payload [fecha,caudal_m3s] / [1961-01-01,] / [1961-01-02,12.5] /
    [1961-01-03,] / [1961-01-04,14.0] as [read_csv] returns it. *)
Definition scenario_frame : DataFrame :=
  mkFrame [0; 1; 2; 3]
    [ mkColumn "fecha"
        (ObjectSeries [Some "1961-01-01"; Some "1961-01-02";
                       Some "1961-01-03"; Some "1961-01-04"]);
      mkColumn "caudal_m3s"
        (FloatSeries [None; Some (25 # 2); None; Some (14 # 1)]) ].

(** A spatial export: [longitud,latitud,valor], one row, all numbers. *)
Definition spatial_frame : DataFrame :=
  mkFrame [0]
    [ mkColumn "longitud" (FloatSeries [Some (- 72475 # 1000)]);
      mkColumn "latitud" (FloatSeries [Some (- 39767 # 1000)]);
      mkColumn "valor" (FloatSeries [Some (25 # 2)]) ].

(** A table without a date column: [caudal] / [12.5]. *)
Definition undated_frame : DataFrame :=
  mkFrame [0] [ mkColumn "caudal" (FloatSeries [Some (25 # 2)]) ].

(** A table dated by a column [dia]: [dia,caudal] / [1961-01-01,12.5]. *)
Definition dia_frame : DataFrame :=
  mkFrame [0]
    [ mkColumn "dia" (ObjectSeries [Some "1961-01-01"]);
      mkColumn "caudal" (FloatSeries [Some (25 # 2)]) ].

(** A table whose column picked by name holds text:
    [fecha,quality] / [1961-01-01,good]. *)
Definition text_frame : DataFrame :=
  mkFrame [0]
    [ mkColumn "fecha" (ObjectSeries [Some "1961-01-01"]);
      mkColumn "quality" (ObjectSeries [Some "good"]) ].

(** A world in which the payload was downloaded and parses to [df] under
    every reader, [data/rinihue_streamflow.csv] exists, and every path can
    be written. *)
Definition world_with (df : DataFrame) : World :=
  mkWorld (fun p => String.eqb p "data/rinihue_streamflow.csv")
          (fun _ => None)
          (fun _ _ => inl df)
          (Some "data/rinihue_streamflow_raw.csv")
          (fun _ => true).

(** A tab-separated file with decimal commas,
    [x<TAB>y] / [1<TAB>2] / [3,5<TAB>4,5]: the comma readers stop at the
    third line (three fields where one was expected), the tab reader
    returns two columns of text. *)
Definition tab_frame : DataFrame :=
  mkFrame [0; 1]
    [ mkColumn "x" (ObjectSeries [Some "1"; Some "3,5"]);
      mkColumn "y" (ObjectSeries [Some "2"; Some "4,5"]) ].

Definition tab_world : World :=
  mkWorld (fun _ => true)
          (fun _ => None)
          (fun a _ =>
             match a with
             | ReadCsv comma _ => inr ParserError
             | ReadCsv _ _ => inl tab_frame
             | _ => inr ParserError
             end)
          (Some "data/rinihue_streamflow_raw.csv")
          (fun _ => true).

(** The scenario after cleaning, as the code leaves it. *)
Definition scenario_cleaned : DataFrame :=
  mkFrame [0; 1; 2; 3]
    [ mkColumn "fecha"
        (ObjectSeries [Some "1961-01-01"; Some "1961-01-02";
                       Some "1961-01-03"; Some "1961-01-04"]);
      mkColumn "caudal_m3s"
        (FloatSeries [Some (25 # 2); Some (25 # 2); Some (25 # 2);
                      Some (14 # 1)]) ].

(** A table with gaps between valid values only:
    [fecha,caudal_m3s] / [1961-01-01,12.5] / [1961-01-02,] / [1961-01-03,] /
    [1961-01-04,14.0]. *)
Definition interior_frame : DataFrame :=
  mkFrame [0; 1; 2; 3]
    [ mkColumn "fecha"
        (ObjectSeries [Some "1961-01-01"; Some "1961-01-02";
                       Some "1961-01-03"; Some "1961-01-04"]);
      mkColumn "caudal_m3s"
        (FloatSeries [Some (25 # 2); None; None; Some (14 # 1)]) ].


(** A spatial export without a value: [longitud,latitud], all numbers. *)
Definition coordinates_frame : DataFrame :=
  mkFrame [0]
    [ mkColumn "longitud" (FloatSeries [Some (- 72475 # 1000)]);
      mkColumn "latitud" (FloatSeries [Some (- 39767 # 1000)]) ].

(** The order in which a delimited text is tried. *)
Definition text_order : list attempt :=
  [ReadCsv comma utf8; ReadCsv comma latin1; ReadCsv tab utf8;
   ReadCsv whitespace utf8].

Definition encoding_order : list attempt :=
  [ReadCsv comma utf8; ReadCsv comma latin1].

(** The reader call [a] on [filepath] fails. *)
Definition failed (w : World) (filepath : string) (a : attempt) : Prop :=
  exists e, read w a filepath = inr e.

(** Which of the two output files a run has written. *)
Inductive written : Type :=
| Neither
| TableOnly
| ChartOnly
| Both.

Definition files_written (fs : Files) : written :=
  match cleaned_csv fs, plot_png fs with
  | None, None => Neither
  | Some _, None => TableOnly
  | None, Some _ => ChartOnly
  | Some _, Some _ => Both
  end.

(** The value column as [clean_data] leaves it before rows are dropped:
    filled forward, then backward, and interpolated if a gap is left. *)
Definition repaired (s : Series) : Series :=
  let s1 := bfill (ffill s) in
  if 0 <? isna_sum s1 then interpolate s1 else s1.

(** The name and the kind of each column. *)
Definition schema (df : DataFrame) : list (string * bool) :=
  map (fun c => (name c, is_number (data c))) (columns df).

(** A table whose value column is missing throughout. *)
Definition missing_frame : DataFrame :=
  mkFrame [0; 1]
    [ mkColumn "fecha" (ObjectSeries [Some "1961-01-01"; Some "1961-01-02"]);
      mkColumn "caudal_m3s" (FloatSeries [None; None]) ].

(** A table whose first column reads as a date and as a flow. *)
Definition date_flow_frame : DataFrame :=
  mkFrame [0]
    [ mkColumn "date_flow" (FloatSeries [Some (25 # 2)]);
      mkColumn "nivel" (FloatSeries [Some (3 # 1)]) ].

(** [df.rename(columns=f)]: the same table under other column names. *)
Definition rename_columns (f : string -> string) (df : DataFrame) : DataFrame :=
  mkFrame (index df)
          (map (fun c => mkColumn (f (name c)) (data c)) (columns df)).

(** [str.upper()] on the ASCII range. *)
Definition upper_ascii (c : ascii) : ascii :=
  let n := nat_of_ascii c in
  if (97 <=? n) && (n <=? 122) then ascii_of_nat (n - 32) else c.

Fixpoint upper (s : string) : string :=
  match s with
  | EmptyString => EmptyString
  | String c r => String (upper_ascii c) (upper r)
  end.

(** A world without openpyxl: the first Excel read raises ImportError, the
    read after the installation returns the table. *)
Definition excel_world : World :=
  mkWorld (fun _ => true)
          (fun _ => None)
          (fun a _ =>
             match a with
             | ReadExcel openpyxl => inr ImportError
             | InstallThenReadExcel => inl scenario_frame
             | _ => inr ParserError
             end)
          None
          (fun _ => true).

(** A column name that is no coordinate name and has neither "valor" nor
    "longitud" nor "latitud" in it, up to case. *)
Definition plain_name (col : string) : bool :=
  negb (contains "valor" (lower col))
  && negb (contains "longitud" (lower col))
  && negb (contains "latitud" (lower col))
  && negb (mem (lower col) Plot19602025.exclude).

(** ** The cleaned table as text

    [main] of [plot_1960_2025.py] saves the cleaned frame with
    [df_clean.to_csv(OUTPUT_CSV, index=False)], and a later run would read
    a file of that kind back with [pd.read_csv] in [load_data].  The text
    written and its parsing are pandas', not the scripts'; they are taken
    here from the specification, for frames no field of which needs
    quoting. *)

Definition comma_char : ascii := ascii_of_nat 44.
Definition newline_char : ascii := ascii_of_nat 10.


Definition is_blank (s : string) : bool :=
  match s with
  | EmptyString => true
  | String _ _ => false
  end.


Fixpoint join (sep : ascii) (fields : list string) : string :=
  match fields with
  | [] => EmptyString
  | f :: r =>
      match r with
      | [] => f
      | _ :: _ => (f ++ String sep (join sep r))%string
      end
  end.

Fixpoint split (sep : ascii) (s : string) : list string :=
  match s with
  | EmptyString => [EmptyString]
  | String a r =>
      if Ascii.eqb a sep then EmptyString :: split sep r
      else
        match split sep r with
        | f :: fs => String a f :: fs
        | [] => [String a EmptyString]
        end
  end.

(** The same float, not only the same number. *)
Definition Qsame (x y : Q) : bool :=
  (Qnum x =? Qnum y)%Z && (Qden x =? Qden y)%positive.

Section TextForm.

(** The text written for a float, and the float read from a text. *)
Variable format_float : Q -> string.
Variable parse_float : string -> option Q.

(** Modelled from the spec: the text of one entry in the cleaned tabular
    export (section 6), which the scripts leave to pandas' [to_csv]: a
    missing entry is written as the empty field, a text as it stands. *)
Definition cell_text (c : option cell) : string :=
  match c with
  | None => EmptyString
  | Some (Number q) => format_float q
  | Some (Text s) => s
  end.

(** Modelled from the spec: the cleaned tabular export of section 6, "a
    delimited text file with a header row", the columns and the rows in
    their order; it stands for [df.to_csv(path, index=False)], which is a
    function of pandas.  The fields of a line are separated by commas and
    every line, the header first, ends with a line break. *)
Definition to_csv_text (df : DataFrame) : string :=
  join newline_char
    ((join comma_char (column_names df)
      :: map (fun r : Row => join comma_char (map cell_text (snd r)))
             (rows df))
     ++ [EmptyString]).

(** Modelled from the spec: the type the Format Resolver infers for a
    column (section 4.2, "inferred per-column types (numeric vs. text)"),
    which is pandas' in [read_csv]: numbers when every field that is not
    empty reads as a float, text otherwise; an empty field is a missing
    entry, and a column without rows holds objects. *)
Definition infer (fields : list string) : Series :=
  match fields with
  | [] => ObjectSeries []
  | _ :: _ =>
      if forallb (fun f => is_blank f
                           || match parse_float f with
                              | Some _ => true
                              | None => false
                              end) fields
      then FloatSeries
             (map (fun f => if is_blank f then None else parse_float f) fields)
      else ObjectSeries
             (map (fun f => if is_blank f then None else Some f) fields)
  end.

(** Modelled from the spec: the comma-separated parsing of the Format
    Resolver (section 4.2), which is [pd.read_csv] of pandas: empty lines
    are passed over, the first line gives the column names, every other
    line one row; a line with more fields than the header is a parse
    failure, a shorter one is filled up with missing entries. *)
Definition read_csv_text (text : string) : DataFrame + read_error :=
  match filter (fun l => negb (is_blank l)) (split newline_char text) with
  | [] => inr ParserError
  | header :: lines =>
      let names := split comma_char header in
      let table := map (split comma_char) lines in
      if forallb (fun r => length r <=? length names) table then
        inl (mkFrame
               (seq 0 (length table))
               (map (fun j =>
                       mkColumn (nth j names EmptyString)
                         (infer (map (fun r => nth j r EmptyString) table)))
                    (seq 0 (length names))))
      else inr ParserError
  end.



End TextForm.

(** The text of the two values of the scenario. *)
Definition scenario_format (q : Q) : string :=
  if Qsame q (25 # 2) then "12.5"
  else if Qsame q (14 # 1) then "14.0"
  else "0.0".

Definition scenario_parse (s : string) : option Q :=
  if String.eqb s "12.5" then Some (25 # 2)
  else if String.eqb s "14.0" then Some (14 # 1)
  else if String.eqb s "0.0" then Some (0 # 1)
  else None.

(** A text given by its lines, each ended by a line break. *)
Definition text_lines (ls : list string) : string :=
  fold_right (fun l t => (l ++ String newline_char t)%string) EmptyString ls.


(** * Properties *)

(** ** Lists under a boolean mask *)

Lemma select_nil_r {A} (mask : list bool) : select mask (@nil A) = [].
Proof. destruct mask as [|[] m]; reflexivity. Qed.

Lemma select_length_le {A} (mask : list bool) (l : list A) :
  length (select mask l) <= length l.
Proof.
  revert l; induction mask as [|b m IH]; intros [|x r]; simpl; try lia.
  destruct b; simpl; specialize (IH r); lia.
Qed.

Lemma select_length {A} (mask : list bool) (l : list A) :
  length mask = length l -> length (select mask l) = count_true mask.
Proof.
  unfold count_true.
  revert l; induction mask as [|b m IH]; intros [|x r] H; simpl in *;
    try discriminate; auto.
  destruct b; simpl; rewrite IH by lia; reflexivity.
Qed.

Lemma select_all {A} (mask : list bool) (l : list A) :
  forallb (fun b => b) mask = true -> length l <= length mask ->
  select mask l = l.
Proof.
  revert l; induction mask as [|b m IH]; intros [|x r] Hall Hlen; simpl in *;
    try reflexivity; try lia.
  apply andb_true_iff in Hall as [-> Hall].
  rewrite IH by (auto; lia). reflexivity.
Qed.

Lemma select_map {A B} (f : A -> B) (mask : list bool) (l : list A) :
  select mask (map f l) = map f (select mask l).
Proof.
  revert l; induction mask as [|b m IH]; intros [|x r]; simpl; auto.
  destruct b; simpl; rewrite IH; reflexivity.
Qed.

Lemma select_subseq {A} (mask : list bool) (l : list A) :
  subseq (select mask l) l.
Proof.
  revert mask; induction l as [|x r IH]; intros mask.
  - rewrite select_nil_r. constructor.
  - destruct mask as [|[] m]; simpl.
    + clear IH. induction (x :: r); constructor; auto.
    + apply subseq_keep, IH.
    + apply subseq_skip, IH.
Qed.

Lemma subseq_refl {A} (l : list A) : subseq l l.
Proof. induction l; [constructor | apply subseq_keep; auto]. Qed.

Lemma count_true_le (mask : list bool) : count_true mask <= length mask.
Proof. unfold count_true. apply filter_length_le. Qed.

Lemma count_true_zero (mask : list bool) :
  count_true mask = 0 <-> forallb negb mask = true.
Proof.
  unfold count_true. induction mask as [|[] m IH]; simpl; split; try tauto;
    try discriminate; apply IH.
Qed.

Lemma count_true_all (mask : list bool) :
  count_true (map negb mask) = 0 -> forallb (fun b => b) mask = true.
Proof.
  unfold count_true. induction mask as [|[] m IH]; simpl; auto; discriminate.
Qed.

(** ** Filling keeps what is valid *)

Lemma fills_refl {A} (xs : list (option A)) : fills xs xs.
Proof. unfold fills. induction xs; constructor; auto. Qed.

Lemma fills_trans {A} (xs ys zs : list (option A)) :
  fills xs ys -> fills ys zs -> fills xs zs.
Proof.
  intros H; revert zs; induction H as [|x y xs ys Hxy _ IH]; intros zs Hz;
    inversion Hz; subst; constructor; auto.
  apply IH; assumption.
Qed.

Lemma fills_ffill_from {A} (last : option A) (xs : list (option A)) :
  fills xs (ffill_from last xs).
Proof.
  unfold fills.
  revert last; induction xs as [|[v|] r IH]; intros last; simpl;
    constructor; auto; discriminate.
Qed.

Lemma fills_bfill_list {A} (xs : list (option A)) : fills xs (bfill_list xs).
Proof.
  unfold fills.
  induction xs as [|[v|] r IH]; simpl; constructor; auto; discriminate.
Qed.

Lemma fills_interpolate_from (prev : option Q) (k : nat) (xs : list (option Q)) :
  fills xs (interpolate_from prev k xs).
Proof.
  unfold fills.
  revert prev k; induction xs as [|[v|] r IH]; intros prev k; simpl;
    constructor; auto; discriminate.
Qed.

Lemma ffill_from_length {A} (last : option A) (xs : list (option A)) :
  length (ffill_from last xs) = length xs.
Proof.
  revert last; induction xs as [|[v|] r IH]; intros last; simpl; auto.
Qed.

Lemma bfill_list_length {A} (xs : list (option A)) :
  length (bfill_list xs) = length xs.
Proof. induction xs as [|[v|] r IH]; simpl; auto. Qed.

(** Once a valid value has been seen, forward filling leaves no gap. *)
Lemma ffill_from_valid {A} (v : A) (xs : list (option A)) :
  count_true (map is_none (ffill_from (Some v) xs)) = 0.
Proof.
  revert v; induction xs as [|[u|] r IH]; intros v; simpl; auto;
    apply IH.
Qed.

(** Backward filling has nothing to do on a column without gaps. *)
Lemma bfill_list_valid {A} (xs : list (option A)) :
  count_true (map is_none xs) = 0 -> bfill_list xs = xs.
Proof.
  induction xs as [|[v|] r IH]; simpl; intros H; auto.
  - rewrite IH; auto.
  - discriminate.
Qed.

(** A column that is missing throughout stays so under each repair. *)
Lemma ffill_from_all_missing {A} (xs : list (option A)) :
  forallb is_none xs = true -> ffill_from None xs = xs.
Proof.
  induction xs as [|[v|] r IH]; simpl; intros H; auto; try discriminate.
  rewrite IH; auto.
Qed.

Lemma bfill_list_all_missing {A} (xs : list (option A)) :
  forallb is_none xs = true -> bfill_list xs = xs.
Proof.
  induction xs as [|[v|] r IH]; simpl; intros H; auto; try discriminate.
  rewrite IH by auto. destruct r as [|[u|] r']; auto; discriminate.
Qed.

Lemma interpolate_from_all_missing (k : nat) (xs : list (option Q)) :
  forallb is_none xs = true -> interpolate_from None k xs = xs.
Proof.
  revert k; induction xs as [|[v|] r IH]; simpl; intros k H; auto;
    try discriminate.
  rewrite IH; auto.
Qed.

(** Dropping the rows where a column is missing leaves it without gaps. *)
Lemma select_notna_valid {A} (xs : list (option A)) :
  count_true (map is_none (select (map negb (map is_none xs)) xs)) = 0.
Proof. induction xs as [|[v|] r IH]; simpl; auto. Qed.

Lemma repairs_refl (s : Series) : repairs s s.
Proof. destruct s; apply fills_refl. Qed.

Lemma repairs_trans (s1 s2 s3 : Series) :
  repairs s1 s2 -> repairs s2 s3 -> repairs s1 s3.
Proof.
  destruct s1, s2, s3; simpl; try tauto; apply fills_trans.
Qed.

Lemma repairs_ffill (s : Series) : repairs s (ffill s).
Proof. destruct s; apply fills_ffill_from. Qed.

Lemma repairs_bfill (s : Series) : repairs s (bfill s).
Proof. destruct s; apply fills_bfill_list. Qed.

Lemma repairs_interpolate (s : Series) : repairs s (interpolate s).
Proof. destruct s; [apply fills_interpolate_from | apply fills_refl]. Qed.

Lemma repairs_len (s s' : Series) : repairs s s' -> series_len s' = series_len s.
Proof.
  destruct s, s'; simpl; try tauto; intros H; symmetry;
    eapply Forall2_length; eauto.
Qed.

Lemma repairs_is_number (s s' : Series) :
  repairs s s' -> is_number s' = is_number s.
Proof. destruct s, s'; simpl; tauto. Qed.

Lemma isna_length (s : Series) : length (isna s) = series_len s.
Proof. destruct s; simpl; apply length_map. Qed.

Lemma notna_length (s : Series) : length (notna s) = series_len s.
Proof. unfold notna. rewrite length_map. apply isna_length. Qed.

Lemma isna_sum_select_notna (s : Series) :
  isna_sum (select_series (notna s) s) = 0.
Proof. destruct s; apply select_notna_valid. Qed.

(** ** Columns of a frame *)

Lemma mem_eqb_cons (x y : string) (l : list string) :
  mem x (y :: l) = String.eqb x y || mem x l.
Proof. reflexivity. Qed.

(** With unique names a column that is there is found. *)
Lemma getitem_unique (df : DataFrame) (col : string) :
  unique (column_names df) = true -> mem col (column_names df) = true ->
  exists s, getitem df col = Ok s.
Proof.
  unfold getitem, column_names. destruct df as [idx cols]; simpl.
  induction cols as [|c r IH]; simpl; intros Hu Hm; [discriminate|].
  apply andb_true_iff in Hu as [Hc Hu].
  rewrite String.eqb_sym in Hm.
  destruct (String.eqb (name c) col) eqn:E.
  - apply String.eqb_eq in E; subst col.
    assert (filter (fun c0 => String.eqb (name c0) (name c)) r = []) as ->.
    { apply negb_true_iff in Hc. clear -Hc.
      induction r as [|d r IH]; simpl in *; auto.
      apply orb_false_iff in Hc as [Hd Hr].
      rewrite String.eqb_sym, Hd. auto. }
    eauto.
  - simpl in Hm. apply IH; auto.
Qed.

Lemma getitem_setitem (df : DataFrame) (col : string) (s s' : Series) :
  getitem df col = Ok s -> getitem (setitem df col s') col = Ok s'.
Proof.
  unfold getitem, setitem; destruct df as [idx cols]; simpl.
  induction cols as [|c r IH]; simpl; [discriminate|].
  destruct (String.eqb (name c) col) eqn:E; simpl.
  - rewrite String.eqb_refl.
    destruct (filter _ r); [reflexivity | discriminate].
  - rewrite E. exact IH.
Qed.

Lemma setitem_setitem (df : DataFrame) (col : string) (s s' : Series) :
  setitem (setitem df col s) col s' = setitem df col s'.
Proof.
  unfold setitem; destruct df as [idx cols]; simpl. f_equal.
  induction cols as [|c r IH]; simpl.
  - rewrite String.eqb_refl. reflexivity.
  - destruct (String.eqb (name c) col) eqn:E; simpl.
    + rewrite String.eqb_refl. reflexivity.
    + rewrite E, IH. reflexivity.
Qed.

Lemma setitem_getitem (df : DataFrame) (col : string) (s : Series) :
  getitem df col = Ok s -> setitem df col s = df.
Proof.
  unfold getitem, setitem; destruct df as [idx cols]; simpl; intros H.
  f_equal. revert H.
  induction cols as [|c r IH]; simpl; [discriminate|].
  destruct (String.eqb (name c) col) eqn:E; simpl.
  - apply String.eqb_eq in E.
    destruct (filter _ r); [|discriminate].
    intros [= <-]. destruct c; simpl in *; subst; reflexivity.
  - intros H. rewrite IH; auto.
Qed.

Lemma column_names_setitem (df : DataFrame) (col : string) (s s' : Series) :
  getitem df col = Ok s ->
  column_names (setitem df col s') = column_names df.
Proof.
  unfold getitem, setitem, column_names; destruct df as [idx cols]; simpl.
  induction cols as [|c r IH]; simpl; [discriminate|].
  destruct (String.eqb (name c) col) eqn:E; simpl.
  - apply String.eqb_eq in E. rewrite E. reflexivity.
  - intros H. rewrite IH; auto.
Qed.

Lemma getitem_take_rows (mask : list bool) (df : DataFrame) (col : string)
    (s : Series) :
  getitem df col = Ok s ->
  getitem (take_rows mask df) col = Ok (select_series mask s).
Proof.
  unfold getitem, take_rows; destruct df as [idx cols]; simpl.
  assert (forall l,
    filter (fun c => String.eqb (name c) col)
      (map (fun c => mkColumn (name c) (select_series mask (data c))) l)
    = map (fun c => mkColumn (name c) (select_series mask (data c)))
        (filter (fun c => String.eqb (name c) col) l)) as ->.
  { induction l as [|c r IH]; simpl; auto.
    destruct (String.eqb (name c) col); simpl; rewrite IH; auto. }
  destruct (filter _ cols) as [|c [|d r]]; simpl; try discriminate.
  intros [= <-]. reflexivity.
Qed.

Lemma column_names_take_rows (mask : list bool) (df : DataFrame) :
  column_names (take_rows mask df) = column_names df.
Proof.
  unfold column_names, take_rows; simpl. rewrite map_map. reflexivity.
Qed.

Lemma len_take_rows_le (mask : list bool) (df : DataFrame) :
  len (take_rows mask df) <= len df.
Proof. unfold len, take_rows; simpl. apply select_length_le. Qed.

Lemma len_take_rows (mask : list bool) (df : DataFrame) :
  length mask = len df -> len (take_rows mask df) = count_true mask.
Proof. unfold len, take_rows; simpl. apply select_length. Qed.

Lemma schema_setitem (df : DataFrame) (col : string) (s s' : Series) :
  getitem df col = Ok s -> is_number s' = is_number s ->
  schema (setitem df col s') = schema df.
Proof.
  unfold getitem, setitem, schema; destruct df as [idx cols]; simpl.
  induction cols as [|c r IH]; simpl; [discriminate|].
  destruct (String.eqb (name c) col) eqn:E; simpl.
  - apply String.eqb_eq in E.
    destruct (filter _ r); [|discriminate].
    intros [= <-] ->. rewrite E. reflexivity.
  - intros H Hn. rewrite IH; auto.
Qed.

Lemma schema_take_rows (mask : list bool) (df : DataFrame) :
  schema (take_rows mask df) = schema df.
Proof.
  unfold schema, take_rows; simpl. rewrite map_map. apply map_ext.
  intros c; simpl. destruct (data c); reflexivity.
Qed.

Lemma schema_names (df : DataFrame) : column_names df = map fst (schema df).
Proof. unfold column_names, schema. rewrite map_map. reflexivity. Qed.

Lemma rectangular_setitem (df : DataFrame) (col : string) (s : Series) :
  rectangular df = true -> series_len s = len df ->
  rectangular (setitem df col s) = true.
Proof.
  unfold rectangular, setitem, len; destruct df as [idx cols]; simpl.
  intros H Hs. induction cols as [|c r IH]; simpl in *.
  - rewrite Hs, Nat.eqb_refl. reflexivity.
  - apply andb_true_iff in H as [Hc Hr].
    destruct (String.eqb (name c) col); simpl.
    + rewrite Hs, Nat.eqb_refl, Hr. reflexivity.
    + rewrite Hc, IH; auto.
Qed.

Lemma rectangular_getitem (df : DataFrame) (col : string) (s : Series) :
  rectangular df = true -> getitem df col = Ok s -> series_len s = len df.
Proof.
  unfold rectangular, getitem, len; destruct df as [idx cols]; simpl.
  intros H. induction cols as [|c r IH]; simpl in *; [discriminate|].
  apply andb_true_iff in H as [Hc Hr].
  destruct (String.eqb (name c) col); simpl; auto.
  destruct (filter _ r); [|discriminate].
  intros [= <-]. apply Nat.eqb_eq; assumption.
Qed.

(** ** Rows under a mask *)

Lemma cells_length (s : Series) : length (cells s) = series_len s.
Proof. destruct s; simpl; apply length_map. Qed.

Lemma cells_select_series (mask : list bool) (s : Series) :
  cells (select_series mask s) = select mask (cells s).
Proof. destruct s; simpl; rewrite select_map; reflexivity. Qed.

Lemma select_cons_cols (b : bool) (m : list bool) (n : nat)
    (cols : list (list (option cell))) :
  Forall (fun c => length c = S n) cols ->
  map (select (b :: m)) cols
  = map (fun c => if b then hd None c :: select m (tl c) else select m (tl c))
        cols.
Proof.
  intros Hc. apply map_ext_in. intros c Hin.
  rewrite Forall_forall in Hc. specialize (Hc c Hin).
  destruct c; [discriminate | reflexivity].
Qed.

Lemma rows_of_select (mask : list bool) (idx : list nat)
    (cols : list (list (option cell))) :
  length mask = length idx ->
  Forall (fun c => length c = length idx) cols ->
  rows_of (select mask idx) (map (select mask) cols)
  = select mask (rows_of idx cols).
Proof.
  revert idx cols; induction mask as [|b m IH]; intros [|i r] cols Hm Hc;
    simpl in Hm, Hc; try discriminate; [reflexivity|].
  assert (Htl : Forall (fun c => length c = length r) (map (@tl _) cols)).
  { rewrite Forall_map. eapply Forall_impl; [|exact Hc].
    intros [|x c]; simpl; intros; [discriminate | lia]. }
  rewrite (select_cons_cols b m _ cols Hc).
  destruct b; simpl; rewrite <- (IH r (map (@tl _) cols)) by (auto; lia);
    rewrite !map_map; reflexivity.
Qed.

(** Boolean indexing takes whole rows, in the order they stand in. *)
Lemma rows_take_rows (mask : list bool) (df : DataFrame) :
  rectangular df = true -> length mask = len df ->
  rows (take_rows mask df) = select mask (rows df).
Proof.
  unfold rows, rectangular, len; destruct df as [idx cols]; simpl.
  intros Hr Hm. rewrite <- rows_of_select; auto.
  - f_equal. rewrite !map_map. apply map_ext. intros c; simpl.
    apply cells_select_series.
  - rewrite Forall_map. rewrite forallb_forall in Hr.
    apply Forall_forall. intros c Hin. rewrite cells_length.
    apply Nat.eqb_eq, Hr, Hin.
Qed.

(** ** clean_data in closed form *)

Lemma clean_data_same (df : DataFrame) (col : string) :
  DownloadAndPlot.clean_data df col = Plot19602025.clean_data df col.
Proof.
  unfold DownloadAndPlot.clean_data, Plot19602025.clean_data.
  destruct (getitem df col) as [s|e] eqn:E; simpl; auto.
  destruct (0 <? isna_sum s); auto.
  rewrite (getitem_setitem _ _ _ _ E); simpl. reflexivity.
Qed.

Lemma clean_data_closed (df : DataFrame) (col : string) (s : Series) :
  getitem df col = Ok s ->
  Plot19602025.clean_data df col
  = Ok (if 0 <? isna_sum s
        then take_rows (notna (repaired s)) (setitem df col (repaired s))
        else df).
Proof.
  intros E. unfold Plot19602025.clean_data, repaired, dropna.
  rewrite E; simpl.
  destruct (0 <? isna_sum s); auto.
  rewrite (getitem_setitem _ _ _ _ E); simpl.
  destruct (0 <? isna_sum (bfill (ffill s))); simpl.
  - rewrite setitem_setitem, (getitem_setitem _ _ _ _ E); reflexivity.
  - rewrite (getitem_setitem _ _ _ _ E); reflexivity.
Qed.

Lemma repairs_repaired (s : Series) : repairs s (repaired s).
Proof.
  unfold repaired.
  assert (H : repairs s (bfill (ffill s)))
    by (eapply repairs_trans; [apply repairs_ffill | apply repairs_bfill]).
  destruct (0 <? isna_sum (bfill (ffill s))); auto.
  eapply repairs_trans; [exact H | apply repairs_interpolate].
Qed.

(** With a valid first entry forward filling closes every gap, and nothing
    is left for the later steps. *)
Lemma repaired_first_valid (s : Series) :
  first_valid s = true ->
  repaired s = ffill s /\ isna_sum (ffill s) = 0.
Proof.
  unfold repaired, first_valid, isna_sum.
  assert (H : forall A (xs : list (option A)),
             match map is_none xs with b :: _ => negb b | [] => false end = true ->
             count_true (map is_none (ffill_list xs)) = 0).
  { intros A [|[v|] r]; simpl; try discriminate. intros _.
    apply (ffill_from_valid v r). }
  destruct s as [xs|xs]; simpl; intros Hf; apply H in Hf;
    rewrite (bfill_list_valid _ Hf); simpl; rewrite Hf; simpl; auto.
Qed.

Lemma ffill_from_id {A} (last : option A) (xs : list (option A)) :
  count_true (map is_none xs) = 0 -> ffill_from last xs = xs.
Proof.
  revert last; induction xs as [|[v|] r IH]; simpl; intros last H; auto.
  - rewrite IH; auto.
  - discriminate.
Qed.

Lemma ffill_id (s : Series) : isna_sum s = 0 -> ffill s = s.
Proof.
  unfold isna_sum; destruct s; simpl; intros H; unfold ffill_list;
    rewrite ffill_from_id; auto.
Qed.

Lemma select_series_all (mask : list bool) (s : Series) :
  forallb (fun b => b) mask = true -> series_len s <= length mask ->
  select_series mask s = s.
Proof.
  destruct s; simpl; intros Ha Hl; rewrite select_all; auto.
Qed.

Lemma take_rows_all (mask : list bool) (df : DataFrame) :
  forallb (fun b => b) mask = true -> rectangular df = true ->
  len df <= length mask -> take_rows mask df = df.
Proof.
  unfold take_rows, rectangular, len; destruct df as [idx cols]; simpl.
  intros Ha Hr Hl. rewrite select_all by auto. f_equal.
  rewrite <- (map_id cols) at 2. apply map_ext_in. intros c Hin.
  rewrite forallb_forall in Hr. specialize (Hr c Hin).
  apply Nat.eqb_eq in Hr.
  rewrite select_series_all by (auto; lia). destruct c; reflexivity.
Qed.

Lemma isna_sum_zero_notna (s : Series) :
  isna_sum s = 0 -> forallb (fun b => b) (notna s) = true.
Proof.
  unfold isna_sum, notna. generalize (isna s) as l.
  unfold count_true.
  induction l as [|[] l IH]; simpl; auto; discriminate.
Qed.

(** ** The cleaner *)

(** C1, as the code has it: on the four-row frame with header
    fecha,caudal_m3s and values [missing, 12.5, missing, 14.0], clean_data
    (of plot_1960_2025.py as of download_and_plot.py) returns the values
    [12.5, 12.5, 12.5, 14.0]: forward filling closes the inner gap with 12.5
    and backward filling the leading one, so interpolation is never
    reached.  No row is dropped. *)
Theorem scenario_cleans_by_filling :
  Plot19602025.clean_data scenario_frame "caudal_m3s" = Ok scenario_cleaned /\
  DownloadAndPlot.clean_data scenario_frame "caudal_m3s" = Ok scenario_cleaned /\
  getitem scenario_cleaned "caudal_m3s"
  = Ok (FloatSeries [Some (25 # 2); Some (25 # 2); Some (25 # 2);
                     Some (14 # 1)]) /\
  index scenario_cleaned = index scenario_frame.
Proof. repeat split; reflexivity. Qed.

(** C1 as stated fails: the cleaned value column is not
    [12.5, 12.5, 13.25, 14.0]. *)
Lemma scenario_not_interpolated :
  (df <- Plot19602025.clean_data scenario_frame "caudal_m3s" ;;
   getitem df "caudal_m3s")
  <> Ok (FloatSeries [Some (25 # 2); Some (25 # 2); Some (53 # 4);
                      Some (14 # 1)]).
Proof. vm_compute. discriminate. Qed.

(** The value 13.25 is what interpolation alone gives between 12.5 and
    14.0; it leaves the leading gap open. *)
Example interpolation_alone :
  interpolate_linear [None; Some (25 # 2); None; Some (14 # 1)]
  = [None; Some (25 # 2); Some (53 # 4); Some (14 # 1)].
Proof. reflexivity. Qed.



(** C7: on a well-formed frame, a frame that clean_data returns has no
    missing value in the value column, the columns of the input (names and
    kinds, in order), at most as many rows, and its rows are rows of the
    input with the value column repaired (valid entries untouched), in the
    order they had. *)
Theorem clean_data_invariants (df df' : DataFrame) (col : string) :
  well_formed df = true ->
  Plot19602025.clean_data df col = Ok df' ->
  exists s s1,
    DownloadAndPlot.clean_data df col = Ok df' /\
    getitem df col = Ok s /\
    (exists s', getitem df' col = Ok s' /\ isna_sum s' = 0) /\
    schema df' = schema df /\
    len df' <= len df /\
    repairs s s1 /\
    subseq (rows df') (rows (setitem df col s1)).
Proof.
  intros Hw Hc. apply andb_true_iff in Hw as [Hr Hu].
  destruct (getitem df col) as [s|e] eqn:E;
    [|unfold Plot19602025.clean_data in Hc; cbv zeta in Hc;
      rewrite E in Hc; discriminate].
  rewrite clean_data_same, Hc.
  rewrite (clean_data_closed df col s E) in Hc. injection Hc as <-.
  destruct (0 <? isna_sum s) eqn:Hmiss.
  - exists s, (repaired s).
    pose proof (repairs_repaired s) as Hrep.
    assert (Hlen : series_len (repaired s) = len df).
    { rewrite (repairs_len _ _ Hrep). eapply rectangular_getitem; eauto. }
    repeat split; auto.
    + exists (select_series (notna (repaired s)) (repaired s)). split.
      * apply getitem_take_rows. eapply getitem_setitem; eauto.
      * apply isna_sum_select_notna.
    + rewrite schema_take_rows. eapply schema_setitem; eauto.
      apply repairs_is_number; auto.
    + exact (len_take_rows_le (notna (repaired s))
                              (setitem df col (repaired s))).
    + rewrite rows_take_rows.
      * apply select_subseq.
      * apply rectangular_setitem; auto.
      * rewrite notna_length. exact Hlen.
  - exists s, s. repeat split; auto.
    + exists s. split; auto. apply Nat.ltb_ge in Hmiss. lia.
    + apply repairs_refl.
    + rewrite (setitem_getitem _ _ _ E). apply subseq_refl.
Qed.

Lemma clean_data_invariants_witness :
  exists s s1,
    DownloadAndPlot.clean_data scenario_frame "caudal_m3s"
    = Ok scenario_cleaned /\
    getitem scenario_frame "caudal_m3s" = Ok s /\
    (exists s', getitem scenario_cleaned "caudal_m3s" = Ok s' /\
                isna_sum s' = 0) /\
    schema scenario_cleaned = schema scenario_frame /\
    len scenario_cleaned <= len scenario_frame /\
    repairs s s1 /\
    subseq (rows scenario_cleaned)
           (rows (setitem scenario_frame "caudal_m3s" s1)).
Proof.
  apply (clean_data_invariants scenario_frame scenario_cleaned "caudal_m3s");
    reflexivity.
Defined.

(** C8: when the first and the last entry of the value column are valid
    (all gaps are interior), clean_data returns the input with the value
    column forward-filled: no missing value is left and the rows are those
    of the input, all of them. *)
Theorem clean_data_interior_gaps (df : DataFrame) (col : string) (s : Series) :
  well_formed df = true ->
  getitem df col = Ok s ->
  first_valid s = true ->
  last_valid s = true ->
  exists df',
    Plot19602025.clean_data df col = Ok df' /\
    DownloadAndPlot.clean_data df col = Ok df' /\
    df' = setitem df col (ffill s) /\
    getitem df' col = Ok (ffill s) /\
    isna_sum (ffill s) = 0 /\
    len df' = len df.
Proof.
  intros Hw E Hfirst _. apply andb_true_iff in Hw as [Hr Hu].
  rewrite clean_data_same, (clean_data_closed df col s E).
  destruct (repaired_first_valid s Hfirst) as [Hrep Hzero].
  exists (setitem df col (ffill s)).
  assert (Hget : getitem (setitem df col (ffill s)) col = Ok (ffill s))
    by (eapply getitem_setitem; eauto).
  assert (Hclean : (if 0 <? isna_sum s
                    then take_rows (notna (repaired s))
                                   (setitem df col (repaired s))
                    else df) = setitem df col (ffill s)).
  { destruct (0 <? isna_sum s) eqn:Hmiss.
    - rewrite Hrep. apply take_rows_all.
      + apply isna_sum_zero_notna; auto.
      + apply rectangular_setitem; auto.
        rewrite (repairs_len _ _ (repairs_ffill s)).
        eapply rectangular_getitem; eauto.
      + rewrite notna_length, (repairs_len _ _ (repairs_ffill s)).
        rewrite (rectangular_getitem df col s Hr E). reflexivity.
    - apply Nat.ltb_ge in Hmiss.
      rewrite ffill_id by lia. rewrite (setitem_getitem _ _ _ E).
      reflexivity. }
  rewrite Hclean. repeat split; auto.
Qed.

Lemma clean_data_interior_gaps_witness :
  exists df',
    Plot19602025.clean_data interior_frame "caudal_m3s" = Ok df' /\
    DownloadAndPlot.clean_data interior_frame "caudal_m3s" = Ok df' /\
    df' = setitem interior_frame "caudal_m3s"
            (ffill (FloatSeries [Some (25 # 2); None; None; Some (14 # 1)])) /\
    getitem df' "caudal_m3s"
    = Ok (ffill (FloatSeries [Some (25 # 2); None; None; Some (14 # 1)])) /\
    isna_sum (ffill (FloatSeries [Some (25 # 2); None; None; Some (14 # 1)]))
    = 0 /\
    len df' = len interior_frame.
Proof.
  apply (clean_data_interior_gaps interior_frame "caudal_m3s"); reflexivity.
Defined.

(** The interior gaps take the value before them. *)
Example interior_gaps_filled :
  (df <- Plot19602025.clean_data interior_frame "caudal_m3s" ;;
   getitem df "caudal_m3s")
  = Ok (FloatSeries [Some (25 # 2); Some (25 # 2); Some (25 # 2);
                     Some (14 # 1)]).
Proof. reflexivity. Qed.

(** ** The plotted window *)

Lemma window_mask_length (dates : list (option Timestamp)) :
  length (Common.window_mask dates) = length dates.
Proof. apply length_map. Qed.

Lemma window_mask_all_nat (dates : list (option Timestamp)) :
  all_nat dates = true -> count_true (Common.window_mask dates) = 0.
Proof.
  unfold all_nat, Common.window_mask, count_true.
  induction dates as [|[t|] r IH]; simpl; intros H; auto; discriminate.
Qed.

(** C10: when no row has its date in [1960-01-01, 2025-12-31], the rows to
    plot are the whole frame with all its dates; the filtered rows and
    dates are used exactly when at least one row is in the window. *)
Theorem window_fallback (df : DataFrame) (dates : list (option Timestamp)) :
  length dates = len df ->
  let mask := Common.window_mask dates in
  let survivors := count_true mask in
  len (take_rows mask df) = survivors /\
  (survivors = 0 -> Common.filter_window df dates = (df, dates)) /\
  (0 < survivors ->
   Common.filter_window df dates = (take_rows mask df, select mask dates)).
Proof.
  intros Hlen mask survivors.
  assert (Hrows : len (take_rows mask df) = survivors).
  { apply len_take_rows. unfold mask. rewrite window_mask_length. exact Hlen. }
  split; [exact Hrows|].
  unfold Common.filter_window. fold mask. rewrite Hrows.
  destruct (all_nat dates) eqn:Hall; simpl.
  - apply window_mask_all_nat in Hall. fold mask in Hall. fold survivors in Hall.
    split; [reflexivity | lia].
  - split; intros H.
    + rewrite H. reflexivity.
    + destruct survivors; [lia | reflexivity].
Qed.

Lemma window_fallback_witness :
  let dates := iso_to_datetime
                 (ObjectSeries [Some "1961-01-01"; Some "1961-01-02";
                                Some "1961-01-03"; Some "2026-01-01"]) in
  let mask := Common.window_mask dates in
  let survivors := count_true mask in
  len (take_rows mask scenario_cleaned) = survivors /\
  (survivors = 0 -> Common.filter_window scenario_cleaned dates
                    = (scenario_cleaned, dates)) /\
  (0 < survivors ->
   Common.filter_window scenario_cleaned dates
   = (take_rows mask scenario_cleaned, select mask dates)).
Proof.
  apply (window_fallback scenario_cleaned); reflexivity.
Defined.

(** Dates all after 2025: nothing survives, everything is plotted. *)
Example window_fallback_late :
  let dates := iso_to_datetime
                 (ObjectSeries [Some "2031-01-01"; Some "2031-01-02";
                                Some "2031-01-03"; Some "2031-01-04"]) in
  Common.filter_window scenario_cleaned dates = (scenario_cleaned, dates).
Proof. reflexivity. Qed.

(** What [create_plot] draws is what the window step chose. *)
Lemma create_plot_draws_window to_datetime with_median file w fs df date_col
    col fs' :
  Common.create_plot to_datetime with_median file w fs df date_col col
  = (fs', Ok tt) ->
  exists dates p,
    Common.process_dates to_datetime df date_col = Ok dates /\
    plot_png fs' = Some p /\
    cleaned_csv fs' = cleaned_csv fs /\
    plot_dates p = snd (Common.filter_window df dates) /\
    getitem (fst (Common.filter_window df dates)) col = Ok (plot_values p).
Proof.
  unfold Common.create_plot.
  destruct (Common.process_dates to_datetime df date_col) as [dates|e];
    simpl; [|discriminate].
  destruct (Common.filter_window df dates) as [df_plot dates_plot] eqn:F;
    simpl.
  destruct (getitem df_plot col) as [values|e] eqn:G; simpl; [|discriminate].
  destruct (describe with_median (len df_plot) values) as [stats|e]; simpl;
    [|discriminate].
  unfold savefig. destruct (can_write w file); [|discriminate].
  intros [= <-]. eexists dates, _. rewrite F. simpl.
  repeat split; auto.
Qed.

Lemma create_plot_raises to_datetime with_median file w fs df date_col col
    fs' e :
  Common.create_plot to_datetime with_median file w fs df date_col col
  = (fs', Raise e) -> fs' = fs.
Proof.
  unfold Common.create_plot.
  destruct (_ <- Common.process_dates to_datetime df date_col ;; _);
    intros [= <-]; reflexivity.
Qed.

(** ** Generated dates *)

Lemma date_range_daily (start : Timestamp) (n : nat) :
  daily_from start n (date_range start n).
Proof.
  unfold daily_from, date_range. split.
  - rewrite length_map, length_seq. reflexivity.
  - intros i Hi.
    rewrite nth_error_map, nth_error_seq.
    destruct (Nat.ltb_spec i n); [reflexivity | lia].
Qed.

(** A range is held when its start is and the day after its last date
    is. *)
Lemma date_range_representable (start : Timestamp) (n : nat) :
  (- timestamp_max <= start)%Z ->
  (start + Z.of_nat n * ns_per_day <= timestamp_max)%Z ->
  forallb representable (date_range start n) = true.
Proof.
  intros Hs He. unfold date_range. apply forallb_forall.
  intros t Ht. apply in_map_iff in Ht as [i [<- Hi]].
  apply in_seq in Hi. unfold representable.
  unfold ns_per_day in *.
  apply andb_true_iff. split; apply Z.leb_le; lia.
Qed.

(** The dates generated for at most 100000 rows are held, from 1960-01-01
    as from 1970-01-01. *)
Lemma generated_representable (n : nat) :
  (Z.of_nat n <= 100000)%Z ->
  forallb representable (date_range (timestamp 1960 1 1) n) = true /\
  forallb representable (date_range (timestamp 1970 1 1) n) = true.
Proof.
  intros Hn.
  change (timestamp 1960 1 1) with (- 3653 * ns_per_day)%Z.
  change (timestamp 1970 1 1) with 0%Z.
  split; apply date_range_representable;
    unfold ns_per_day, timestamp_max; lia.
Qed.

(** From 1960-01-01 a range of 110404 days is the longest that is held. *)
Lemma date_range_limit :
  (timestamp 1960 1 1 + 110404 * ns_per_day <= timestamp_max)%Z /\
  (timestamp_max < timestamp 1960 1 1 + 110405 * ns_per_day)%Z.
Proof. split; vm_compute; [discriminate | reflexivity]. Qed.

(** The day numbers behind the dates of the scripts. *)
Lemma civil_days :
  days_from_civil 1960 1 1 = (-3653)%Z /\
  days_from_civil 1970 1 1 = 0%Z /\
  days_from_civil 2025 12 31 = 20453%Z.
Proof. repeat split; reflexivity. Qed.

(** C3, as the code has it: without a date column the generated dates are
    one per row, a day apart.  In plot_1960_2025.py they start at
    1960-01-01; in extract_rinihue_streamflow.py they start at 1960-01-01
    when the frame has more than 20000 rows and at 1970-01-01 otherwise.
    Each script is taken with its own search for a date column.  The frame
    has at most 100000 rows, and every generated date is then one pandas
    holds (its 64-bit nanosecond timestamps end in April 2262, 110404 days
    after 1960-01-01). *)
Theorem generated_dates (to_datetime : Series -> list (option Timestamp))
    (df : DataFrame) :
  (Z.of_nat (len df) <= 100000)%Z ->
  (fst (Plot19602025.identify_columns df) = None ->
   exists dates,
     Common.process_dates to_datetime df
       (fst (Plot19602025.identify_columns df)) = Ok dates /\
     daily_from (timestamp 1960 1 1) (len df) dates /\
     forallb representable dates = true) /\
  (ExtractRinihue.identify_date_column df = None ->
   exists dates,
     ExtractRinihue.plot_dates to_datetime df
       (ExtractRinihue.identify_date_column df) = Ok dates /\
     daily_from (if (20000 <? Z.of_nat (len df))%Z
                 then timestamp 1960 1 1 else timestamp 1970 1 1)
                (len df) dates /\
     forallb representable dates = true).
Proof.
  intros Hn. destruct (generated_representable (len df) Hn) as [H60 H70].
  split; intros ->; eexists; (split; [reflexivity|]);
    (split; [apply date_range_daily|]); [exact H60|].
  destruct (20000 <? Z.of_nat (len df))%Z; assumption.
Qed.

Lemma generated_dates_witness :
  (exists dates,
     Common.process_dates iso_to_datetime undated_frame
       (fst (Plot19602025.identify_columns undated_frame)) = Ok dates /\
     daily_from (timestamp 1960 1 1) (len undated_frame) dates /\
     forallb representable dates = true) /\
  (exists dates,
     ExtractRinihue.plot_dates iso_to_datetime undated_frame
       (ExtractRinihue.identify_date_column undated_frame) = Ok dates /\
     daily_from (if (20000 <? Z.of_nat (len undated_frame))%Z
                 then timestamp 1960 1 1 else timestamp 1970 1 1)
                (len undated_frame) dates /\
     forallb representable dates = true).
Proof.
  destruct (generated_dates iso_to_datetime undated_frame) as [Hplot Hextract];
    [vm_compute; discriminate|].
  split; [apply Hplot | apply Hextract]; reflexivity.
Defined.

(** C3 as stated fails in extract_rinihue_streamflow.py: a one-row frame
    without a date column gets the date 1970-01-01, not 1960-01-01. *)
Lemma extract_dates_start_1970 :
  ExtractRinihue.identify_date_column undated_frame = None /\
  ExtractRinihue.plot_dates iso_to_datetime undated_frame
    (ExtractRinihue.identify_date_column undated_frame)
  = Ok [Some (timestamp 1970 1 1)] /\
  timestamp 1970 1 1 <> timestamp 1960 1 1.
Proof. repeat split; try reflexivity. vm_compute. discriminate. Qed.

(** The searches for a date column differ: [dia] names one for
    plot_1960_2025.py and none for extract_rinihue_streamflow.py, which
    generates the date of the row. *)
Example dia_is_a_date_for_one_script :
  fst (Plot19602025.identify_columns dia_frame) = Some "dia" /\
  ExtractRinihue.identify_date_column dia_frame = None /\
  ExtractRinihue.plot_dates iso_to_datetime dia_frame
    (ExtractRinihue.identify_date_column dia_frame)
  = Ok [Some (timestamp 1970 1 1)].
Proof. repeat split; reflexivity. Qed.

(** ** The column identifier *)

Lemma hd_error_In {A} (l : list A) (x : A) : hd_error l = Some x -> In x l.
Proof. destruct l; simpl; [discriminate | intros [= ->]; auto]. Qed.

(** A name that is one of the coordinate names has none of the streamflow
    terms in it. *)
Lemma coordinate_names_have_no_term (s : string) :
  mem s Plot19602025.exclude = true ->
  any_in Plot19602025.flow_terms s = false.
Proof.
  unfold mem. intros H. apply existsb_exists in H as [x [Hin Heq]].
  apply String.eqb_eq in Heq; subst x.
  simpl in Hin.
  repeat (destruct Hin as [<- | Hin]; [reflexivity|]).
  contradiction.
Qed.

(** C2, as the code has it: the identifier of plot_1960_2025.py never
    returns a column whose name is, up to case, one of lon, lat, latitud,
    longitud, x, y; for the columns longitud, latitud, valor it returns
    valor, and for longitud, latitud alone it returns no value column. *)
Theorem plot_identifier_avoids_coordinates :
  (forall df col,
     snd (Plot19602025.identify_columns df) = Some col ->
     mem (lower col) Plot19602025.exclude = false) /\
  snd (Plot19602025.identify_columns spatial_frame) = Some "valor" /\
  snd (Plot19602025.identify_columns coordinates_frame) = None.
Proof.
  split; [|split; reflexivity].
  intros df col. unfold Plot19602025.identify_columns. cbv zeta. cbn [snd].
  match goal with
  | |- context [match find ?p ?l with Some _ => _ | None => hd_error _ end] =>
      destruct (find p l) as [c|] eqn:F
  end.
  - intros [= ->]. apply find_some in F as [_ F].
    apply andb_true_iff in F as [F _].
    destruct (mem (lower col) Plot19602025.exclude) eqn:M; auto.
    rewrite (coordinate_names_have_no_term _ M) in F. discriminate.
  - intros H. apply hd_error_In, filter_In in H as [_ H].
    apply negb_true_iff in H. exact H.
Qed.

Lemma plot_identifier_avoids_coordinates_witness :
  mem (lower "valor") Plot19602025.exclude = false.
Proof.
  apply (proj1 plot_identifier_avoids_coordinates spatial_frame "valor").
  reflexivity.
Defined.

(** C2 as stated fails in download_and_plot.py: on the numeric columns
    longitud, latitud, valor its identifier returns longitud, a coordinate
    name, although two more numeric columns are there. *)
Lemma download_identifier_picks_longitude :
  snd (DownloadAndPlot.identify_columns spatial_frame) = Some "longitud" /\
  mem (lower "longitud") Plot19602025.exclude = true /\
  numeric_columns spatial_frame = ["longitud"; "latitud"; "valor"].
Proof. repeat split; reflexivity. Qed.

(** ** The loaders *)

Ltac prefix_of_order :=
  first [ exists 1; split; [lia | reflexivity]
        | exists 2; split; [lia | reflexivity]
        | exists 3; split; [lia | reflexivity]
        | exists 4; split; [lia | reflexivity] ].

Ltac all_failed :=
  unfold text_order, encoding_order;
  repeat (apply Forall_cons; [eexists; eassumption|]); apply Forall_nil.

Ltac answered_by earlier :=
  exists earlier; eexists;
  split; [reflexivity | split; [eassumption | all_failed]].

Ltac last_attempt :=
  first [ answered_by (@nil attempt)
        | answered_by [ReadCsv comma utf8]
        | answered_by [ReadCsv comma utf8; ReadCsv comma latin1]
        | answered_by [ReadCsv comma utf8; ReadCsv comma latin1;
                       ReadCsv tab utf8] ].

(** C5, as the code has it: for a path that does not end in .xlsx or .xls,
    load_data_from_file of extract_rinihue_streamflow.py calls the readers
    in the order comma/UTF-8, comma/Latin-1, tab, whitespace, stops at the
    first that returns a frame and returns that frame, and raises only
    after all four have failed.  load_and_process_data of
    download_and_plot.py calls comma/UTF-8 and then comma/Latin-1 only, and
    reports failure when these two have failed. *)
Theorem text_loader_order (w : World) (filepath : string) :
  endswith filepath ".xlsx" || endswith filepath ".xls" = false ->
  (let t := fst (ExtractRinihue.load_data_from_file w filepath) in
   let r := snd (ExtractRinihue.load_data_from_file w filepath) in
   (exists n, 0 < n /\ t = firstn n text_order) /\
   (forall df, r = inl df ->
      exists earlier a,
        t = earlier ++ [a] /\ read w a filepath = inl df /\
        Forall (failed w filepath) earlier) /\
   (forall e, r = inr e ->
      e = CouldNotRead /\ t = text_order /\
      Forall (failed w filepath) text_order)) /\
  (let t := fst (DownloadAndPlot.load_and_process_data w filepath) in
   let r := snd (DownloadAndPlot.load_and_process_data w filepath) in
   (exists n, 0 < n /\ t = firstn n encoding_order) /\
   (forall df, r = Some df ->
      exists earlier a,
        t = earlier ++ [a] /\ read w a filepath = inl df /\
        Forall (failed w filepath) earlier) /\
   (r = None ->
      t = encoding_order /\ Forall (failed w filepath) encoding_order)).
Proof.
  intros H. apply orb_false_iff in H as [H1 H2].
  unfold ExtractRinihue.load_data_from_file,
    DownloadAndPlot.load_and_process_data, or_else, try_read,
    raise_value_error.
  rewrite H1, H2. cbn [orb].
  destruct (read w (ReadCsv comma utf8) filepath) eqn:E1;
    [| destruct (read w (ReadCsv comma latin1) filepath) eqn:E2;
       [| destruct (read w (ReadCsv tab utf8) filepath) eqn:E3;
          [| destruct (read w (ReadCsv whitespace utf8) filepath) eqn:E4]]];
    cbn; split; (split; [prefix_of_order | split]);
    try (intros ? [= <-]; last_attempt);
    try (intros ? [= <-]; repeat split; all_failed);
    try discriminate;
    try (intros _; split; [reflexivity | all_failed]).
Qed.

Lemma text_loader_order_witness :
  (let t := fst (ExtractRinihue.load_data_from_file tab_world "data/q.txt") in
   let r := snd (ExtractRinihue.load_data_from_file tab_world "data/q.txt") in
   (exists n, 0 < n /\ t = firstn n text_order) /\
   (forall df, r = inl df ->
      exists earlier a,
        t = earlier ++ [a] /\ read tab_world a "data/q.txt" = inl df /\
        Forall (failed tab_world "data/q.txt") earlier) /\
   (forall e, r = inr e ->
      e = CouldNotRead /\ t = text_order /\
      Forall (failed tab_world "data/q.txt") text_order)) /\
  (let t := fst (DownloadAndPlot.load_and_process_data tab_world "data/q.txt") in
   let r := snd (DownloadAndPlot.load_and_process_data tab_world "data/q.txt") in
   (exists n, 0 < n /\ t = firstn n encoding_order) /\
   (forall df, r = Some df ->
      exists earlier a,
        t = earlier ++ [a] /\ read tab_world a "data/q.txt" = inl df /\
        Forall (failed tab_world "data/q.txt") earlier) /\
   (r = None ->
      t = encoding_order /\ Forall (failed tab_world "data/q.txt") encoding_order)).
Proof.
  apply (text_loader_order tab_world "data/q.txt"); reflexivity.
Defined.

(** On a tab-separated file with decimal commas the loader of
    extract_rinihue_streamflow.py gets to the tab reader. *)
Example extract_loader_reaches_tab :
  ExtractRinihue.load_data_from_file tab_world "data/rinihue_streamflow_raw.csv"
  = ([ReadCsv comma utf8; ReadCsv comma latin1; ReadCsv tab utf8],
     inl tab_frame).
Proof. reflexivity. Qed.

(** C5 as stated fails in download_and_plot.py: on the same file its loader
    reports failure after the two comma readers, although the tab reader,
    which it never calls, would return the table. *)
Lemma download_loader_stops_after_two :
  DownloadAndPlot.load_and_process_data tab_world
    "data/rinihue_streamflow_raw.csv"
  = ([ReadCsv comma utf8; ReadCsv comma latin1], None) /\
  read tab_world (ReadCsv tab utf8) "data/rinihue_streamflow_raw.csv"
  = inl tab_frame.
Proof. split; reflexivity. Qed.

(** ** The two output files *)

Lemma create_plot_written to_datetime with_median file w fs df date_col col :
  match Common.create_plot to_datetime with_median file w fs df date_col col
  with
  | (fs', Ok _) => cleaned_csv fs' = cleaned_csv fs /\ plot_png fs' <> None
  | (fs', Raise _) => fs' = fs
  end.
Proof.
  destruct (Common.create_plot _ _ _ _ _ _ _ _) as [fs' [[]|e]] eqn:E.
  - apply create_plot_draws_window in E
      as (dates & p & _ & Hp & Hc & _).
    split; [exact Hc | rewrite Hp; discriminate].
  - eapply create_plot_raises; eauto.
Qed.

(** C4, as the code has it: a run of main (plot_1960_2025.py as
    download_and_plot.py) that returns 0 has written both files, one that
    returns another code has written neither, and one that an exception
    ends has written neither, or the cleaned table alone: the table is
    saved before the chart is drawn and stays when drawing raises.  The
    chart is never written without the table. *)
Theorem run_outputs (to_datetime : Series -> list (option Timestamp))
    (w : World) :
  match snd (Plot19602025.main to_datetime w) with
  | Exit 0 => files_written (fst (Plot19602025.main to_datetime w)) = Both
  | Exit _ => files_written (fst (Plot19602025.main to_datetime w)) = Neither
  | Uncaught _ =>
      files_written (fst (Plot19602025.main to_datetime w)) = Neither \/
      files_written (fst (Plot19602025.main to_datetime w)) = TableOnly
  end /\
  match snd (DownloadAndPlot.main to_datetime w) with
  | Exit 0 => files_written (fst (DownloadAndPlot.main to_datetime w)) = Both
  | Exit _ => files_written (fst (DownloadAndPlot.main to_datetime w)) = Neither
  | Uncaught _ =>
      files_written (fst (DownloadAndPlot.main to_datetime w)) = Neither \/
      files_written (fst (DownloadAndPlot.main to_datetime w)) = TableOnly
  end.
Proof.
  split.
  - unfold Plot19602025.main, Plot19602025.create_plot.
    destruct (Plot19602025.find_data_file w) as [data_file|];
      [|reflexivity].
    destruct (snd (Plot19602025.load_data w data_file)) as [df|];
      [|reflexivity].
    destruct (Plot19602025.identify_columns df) as [date_col [col|]];
      [|reflexivity].
    destruct (Plot19602025.clean_data df col) as [df_clean|e];
      [|left; reflexivity].
    unfold to_csv.
    destruct (can_write w Plot19602025.OUTPUT_CSV); [|left; reflexivity].
    pose proof (create_plot_written to_datetime true Plot19602025.PLOT_FILE w
                  (mkFiles (Some df_clean) (plot_png no_files))
                  df_clean date_col col) as H.
    destruct (Common.create_plot _ _ _ _ _ _ _ _) as [fs' [u|e]];
      cbn [fst snd].
    + destruct H as [Hc Hp]. unfold files_written. rewrite Hc. simpl.
      destruct (plot_png fs'); [reflexivity | contradiction].
    + subst fs'. right. reflexivity.
  - unfold DownloadAndPlot.main, DownloadAndPlot.create_plot.
    destruct (DownloadAndPlot.download_data w) as [data_file|];
      [|reflexivity].
    destruct (snd (DownloadAndPlot.load_and_process_data w data_file))
      as [df|]; [|reflexivity].
    destruct (DownloadAndPlot.identify_columns df) as [date_col [col|]];
      [|reflexivity].
    destruct (DownloadAndPlot.clean_data df col) as [df_clean|e];
      [|left; reflexivity].
    unfold to_csv.
    destruct (can_write w DownloadAndPlot.OUTPUT_CSV); [|left; reflexivity].
    pose proof (create_plot_written to_datetime false DownloadAndPlot.PLOT_FILE
                  w (mkFiles (Some df_clean) (plot_png no_files))
                  df_clean date_col col) as H.
    destruct (Common.create_plot _ _ _ _ _ _ _ _) as [fs' [u|e]];
      cbn [fst snd].
    + destruct H as [Hc Hp]. unfold files_written. rewrite Hc. simpl.
      destruct (plot_png fs'); [reflexivity | contradiction].
    + subst fs'. right. reflexivity.
Qed.

(** C4 as stated fails: on the table fecha,quality / 1961-01-01,good the
    column quality is picked by its letter q, the cleaned table is saved,
    and formatting the minimum "good" with two decimals raises before the
    chart is saved; the run ends with the table alone. *)
Lemma table_without_chart :
  Plot19602025.identify_columns text_frame = (Some "fecha", Some "quality") /\
  files_written (fst (Plot19602025.main iso_to_datetime (world_with text_frame)))
  = TableOnly /\
  snd (Plot19602025.main iso_to_datetime (world_with text_frame))
  = Uncaught ValueError /\
  files_written
    (fst (DownloadAndPlot.main iso_to_datetime (world_with text_frame)))
  = TableOnly.
Proof. repeat split; reflexivity. Qed.

(** On the scenario table both files are written. *)
Example scenario_run :
  files_written
    (fst (Plot19602025.main iso_to_datetime (world_with scenario_frame)))
  = Both /\
  snd (Plot19602025.main iso_to_datetime (world_with scenario_frame)) = Exit 0.
Proof. split; reflexivity. Qed.

(** * Further properties of the scripts *)

(** ** What the repair steps of clean_data do *)

Lemma select_none {A} (mask : list bool) (l : list A) :
  forallb negb mask = true -> select mask l = [].
Proof.
  revert l; induction mask as [|[] m IH]; intros [|x r]; simpl; auto;
    discriminate.
Qed.

Lemma count_true_nil_iff (xs : list bool) :
  count_true xs = 0 -> forallb (fun b => b) xs = true -> xs = [].
Proof.
  unfold count_true. destruct xs as [|[] r]; simpl; auto; discriminate.
Qed.

(** Forward then backward filling closes every gap as soon as one entry is
    valid. *)
Lemma bfill_ffill_valid {A} (xs : list (option A)) :
  forallb is_none xs = false ->
  count_true (map is_none (bfill_list (ffill_list xs))) = 0.
Proof.
  unfold ffill_list.
  induction xs as [|[v|] r IH]; simpl; intros H; try discriminate.
  - pose proof (ffill_from_valid v r) as Hv.
    rewrite (bfill_list_valid _ Hv). exact Hv.
  - specialize (IH H).
    destruct (bfill_list (ffill_from None r)) as [|y r'] eqn:E.
    + apply (f_equal (@length _)) in E.
      rewrite bfill_list_length, ffill_from_length in E.
      destruct r; [discriminate H | discriminate E].
    + simpl. destruct y; simpl in *; [exact IH | discriminate IH].
Qed.

Lemma forallb_is_none {A} (xs : list (option A)) :
  forallb (fun b => b) (map is_none xs) = forallb is_none xs.
Proof. induction xs as [|x r IH]; simpl; [|rewrite IH]; reflexivity. Qed.

Lemma isna_all_false_filled (s : Series) :
  isna_all s = false -> isna_sum (bfill (ffill s)) = 0.
Proof.
  unfold isna_all, isna_sum.
  destruct s as [xs|xs]; simpl; rewrite forallb_is_none; intros H;
    apply bfill_ffill_valid; exact H.
Qed.

Lemma isna_all_true_unchanged (s : Series) :
  isna_all s = true ->
  bfill (ffill s) = s /\ interpolate s = s.
Proof.
  unfold isna_all.
  destruct s as [xs|xs]; simpl; rewrite forallb_is_none; intros H;
    unfold ffill_list, interpolate_linear;
    rewrite ?ffill_from_all_missing, ?bfill_list_all_missing,
      ?interpolate_from_all_missing by assumption; auto.
Qed.

Lemma repaired_fills (s : Series) : repaired s = bfill (ffill s).
Proof.
  unfold repaired. destruct (isna_all s) eqn:Hall.
  - destruct (isna_all_true_unchanged s Hall) as [-> ->].
    destruct (0 <? isna_sum s); reflexivity.
  - rewrite (isna_all_false_filled s Hall). reflexivity.
Qed.

(** X1: on a value column that holds numbers the interpolation step of
    clean_data contributes nothing: a gap is left after filling forward and
    backward only when the whole column is missing, interpolation then
    leaves the column as it is, and clean_data returns what it returns
    without that step. *)
Theorem interpolation_changes_nothing (df : DataFrame) (col : string)
    (xs : list (option Q)) :
  getitem df col = Ok (FloatSeries xs) ->
  ((0 <? isna_sum (bfill (ffill (FloatSeries xs)))) = true ->
   isna_all (FloatSeries xs) = true /\
   interpolate (bfill (ffill (FloatSeries xs)))
   = bfill (ffill (FloatSeries xs))) /\
  Plot19602025.clean_data df col
  = Ok (if 0 <? isna_sum (FloatSeries xs)
        then take_rows (notna (bfill (ffill (FloatSeries xs))))
                       (setitem df col (bfill (ffill (FloatSeries xs))))
        else df) /\
  DownloadAndPlot.clean_data df col = Plot19602025.clean_data df col.
Proof.
  intros E. split; [|split].
  - intros H. destruct (isna_all (FloatSeries xs)) eqn:Hall.
    + split; [reflexivity|].
      destruct (isna_all_true_unchanged _ Hall) as [-> ->]. reflexivity.
    + rewrite (isna_all_false_filled _ Hall) in H. discriminate.
  - rewrite (clean_data_closed df col _ E), repaired_fills. reflexivity.
  - apply clean_data_same.
Qed.

Lemma interpolation_changes_nothing_witness :
  ((0 <? isna_sum (bfill (ffill (FloatSeries [None; None])))) = true ->
   isna_all (FloatSeries [None; None]) = true /\
   interpolate (bfill (ffill (FloatSeries [None; None])))
   = bfill (ffill (FloatSeries [None; None]))) /\
  Plot19602025.clean_data missing_frame "caudal_m3s"
  = Ok (if 0 <? isna_sum (FloatSeries [None; None])
        then take_rows (notna (bfill (ffill (FloatSeries [None; None]))))
                       (setitem missing_frame "caudal_m3s"
                          (bfill (ffill (FloatSeries [None; None]))))
        else missing_frame) /\
  DownloadAndPlot.clean_data missing_frame "caudal_m3s"
  = Plot19602025.clean_data missing_frame "caudal_m3s".
Proof.
  apply (interpolation_changes_nothing missing_frame "caudal_m3s"
           [None; None]).
  reflexivity.
Defined.

(** X2: when the value column has at least one valid entry, clean_data
    keeps every row: it returns the input with the value column filled
    forward and then backward, which leaves no gap. *)
Theorem clean_data_keeps_rows (df : DataFrame) (col : string) (s : Series) :
  rectangular df = true ->
  getitem df col = Ok s ->
  isna_all s = false ->
  Plot19602025.clean_data df col = Ok (setitem df col (bfill (ffill s))) /\
  DownloadAndPlot.clean_data df col = Ok (setitem df col (bfill (ffill s))) /\
  isna_sum (bfill (ffill s)) = 0 /\
  index (setitem df col (bfill (ffill s))) = index df.
Proof.
  intros Hr E Hall.
  pose proof (isna_all_false_filled s Hall) as Hz.
  rewrite clean_data_same, (clean_data_closed df col s E), repaired_fills.
  assert (Hrep : repairs s (bfill (ffill s)))
    by (eapply repairs_trans; [apply repairs_ffill | apply repairs_bfill]).
  assert (Hclean : (if 0 <? isna_sum s
                    then take_rows (notna (bfill (ffill s)))
                                   (setitem df col (bfill (ffill s)))
                    else df) = setitem df col (bfill (ffill s))).
  { pose proof (rectangular_getitem df col s Hr E) as Hlen.
    destruct (0 <? isna_sum s) eqn:Hmiss.
    - apply take_rows_all.
      + apply isna_sum_zero_notna; auto.
      + apply rectangular_setitem; auto.
        rewrite (repairs_len _ _ Hrep). exact Hlen.
      + rewrite notna_length, (repairs_len _ _ Hrep), Hlen. reflexivity.
    - apply Nat.ltb_ge in Hmiss.
      assert (Hs : isna_sum s = 0) by lia.
      rewrite (ffill_id s Hs).
      assert (bfill s = s) as ->.
      { revert Hs. unfold isna_sum. destruct s; simpl; intros Hs;
          rewrite bfill_list_valid; auto. }
      rewrite (setitem_getitem _ _ _ E). reflexivity. }
  rewrite Hclean. repeat split; auto.
Qed.

Lemma clean_data_keeps_rows_witness :
  Plot19602025.clean_data scenario_frame "caudal_m3s"
  = Ok (setitem scenario_frame "caudal_m3s"
          (bfill (ffill (FloatSeries [None; Some (25 # 2); None;
                                      Some (14 # 1)])))) /\
  DownloadAndPlot.clean_data scenario_frame "caudal_m3s"
  = Ok (setitem scenario_frame "caudal_m3s"
          (bfill (ffill (FloatSeries [None; Some (25 # 2); None;
                                      Some (14 # 1)])))) /\
  isna_sum (bfill (ffill (FloatSeries [None; Some (25 # 2); None;
                                       Some (14 # 1)]))) = 0 /\
  index (setitem scenario_frame "caudal_m3s"
           (bfill (ffill (FloatSeries [None; Some (25 # 2); None;
                                       Some (14 # 1)]))))
  = index scenario_frame.
Proof.
  apply (clean_data_keeps_rows scenario_frame "caudal_m3s"); reflexivity.
Defined.

Lemma isna_all_notna (s : Series) :
  isna_all s = true -> forallb negb (notna s) = true.
Proof.
  unfold isna_all, notna. generalize (isna s) as l.
  induction l as [|[] l IH]; simpl; auto.
Qed.

(** X3: when the value column holds numbers and every entry of it is
    missing, clean_data drops every row and keeps the columns. *)
Theorem clean_data_drops_all (df : DataFrame) (col : string) (s : Series) :
  rectangular df = true ->
  getitem df col = Ok s ->
  is_number s = true ->
  isna_all s = true ->
  exists df',
    Plot19602025.clean_data df col = Ok df' /\
    DownloadAndPlot.clean_data df col = Ok df' /\
    len df' = 0 /\
    schema df' = schema df.
Proof.
  intros Hr E _ Hall.
  rewrite clean_data_same, (clean_data_closed df col s E), repaired_fills.
  destruct (isna_all_true_unchanged s Hall) as [Hfill _]. rewrite Hfill.
  rewrite (setitem_getitem _ _ _ E).
  destruct (0 <? isna_sum s) eqn:Hmiss.
  - eexists; repeat split.
    + unfold len, take_rows; simpl.
      rewrite select_none; [reflexivity | apply isna_all_notna; auto].
    + apply schema_take_rows.
  - exists df; repeat split.
    apply Nat.ltb_ge in Hmiss.
    rewrite <- (rectangular_getitem df col s Hr E), <- isna_length.
    unfold isna_all, isna_sum in *.
    rewrite (count_true_nil_iff (isna s)); auto. lia.
Qed.

Lemma clean_data_drops_all_witness :
  exists df',
    Plot19602025.clean_data missing_frame "caudal_m3s" = Ok df' /\
    DownloadAndPlot.clean_data missing_frame "caudal_m3s" = Ok df' /\
    len df' = 0 /\
    schema df' = schema missing_frame.
Proof.
  apply (clean_data_drops_all missing_frame "caudal_m3s"
           (FloatSeries [None; None])); reflexivity.
Defined.

(** X4: cleaning a cleaned frame changes nothing. *)
Theorem clean_data_idempotent (df df' : DataFrame) (col : string) :
  Plot19602025.clean_data df col = Ok df' ->
  Plot19602025.clean_data df' col = Ok df' /\
  DownloadAndPlot.clean_data df' col = Ok df'.
Proof.
  intros H. rewrite clean_data_same.
  destruct (getitem df col) as [s|e] eqn:E.
  - rewrite (clean_data_closed df col s E) in H. injection H as <-.
    destruct (0 <? isna_sum s) eqn:Hmiss.
    + pose proof (getitem_take_rows (notna (repaired s)) _ col _
                    (getitem_setitem df col s (repaired s) E)) as G.
      rewrite (clean_data_closed _ col _ G), isna_sum_select_notna.
      split; reflexivity.
    + rewrite (clean_data_closed df col s E), Hmiss. split; reflexivity.
  - unfold Plot19602025.clean_data in H. rewrite E in H. discriminate.
Qed.

Lemma clean_data_idempotent_witness :
  Plot19602025.clean_data scenario_cleaned "caudal_m3s" = Ok scenario_cleaned /\
  DownloadAndPlot.clean_data scenario_cleaned "caudal_m3s"
  = Ok scenario_cleaned.
Proof.
  apply (clean_data_idempotent scenario_frame scenario_cleaned "caudal_m3s").
  reflexivity.
Defined.

Lemma In_ffill_from {A} (last : option A) (xs : list (option A)) (v : A) :
  In (Some v) (ffill_from last xs) -> last = Some v \/ In (Some v) xs.
Proof.
  revert last; induction xs as [|[u|] r IH]; simpl; intros last H.
  - contradiction.
  - destruct H as [H|H]; [right; left; exact H|].
    apply IH in H as [H|H]; [right; left; exact H | right; right; exact H].
  - destruct H as [H|H]; [left; exact H|].
    apply IH in H as [H|H]; [left; exact H | right; right; exact H].
Qed.

Lemma In_bfill_list {A} (xs : list (option A)) (v : A) :
  In (Some v) (bfill_list xs) -> In (Some v) xs.
Proof.
  induction xs as [|[u|] r IH]; simpl; intros H.
  - contradiction.
  - destruct H as [H|H]; [left; exact H | right; auto].
  - right. apply IH. destruct H as [H|H]; [|exact H].
    destruct (bfill_list r); simpl in H; [discriminate | left; exact H].
Qed.

Lemma In_select {A} (mask : list bool) (l : list A) (x : A) :
  In x (select mask l) -> In x l.
Proof.
  revert l; induction mask as [|b m IH]; intros [|y r]; simpl; try tauto.
  destruct b; simpl; intros H.
  - destruct H as [H|H]; [left; exact H | right; apply IH, H].
  - right; apply IH, H.
Qed.

Lemma In_cells_filled (s : Series) (c : cell) :
  In (Some c) (cells (bfill (ffill s))) -> In (Some c) (cells s).
Proof.
  assert (H : forall A B (f : A -> B) (xs : list (option A)) y,
             In (Some y) (map (option_map f) (bfill_list (ffill_list xs))) ->
             In (Some y) (map (option_map f) xs)).
  { intros A B f xs y Hin. apply in_map_iff in Hin as [[v|] [Hv Hin]];
      [|discriminate].
    apply in_map_iff. exists (Some v). split; [exact Hv|].
    apply In_bfill_list, In_ffill_from in Hin as [Hin|Hin];
      [discriminate | exact Hin]. }
  destruct s; simpl; apply H.
Qed.

(** X5: clean_data invents no value: every entry of the cleaned value
    column is an entry of the input column. *)
Theorem clean_data_no_new_values (df df' : DataFrame) (col : string)
    (s s' : Series) (c : cell) :
  getitem df col = Ok s ->
  Plot19602025.clean_data df col = Ok df' ->
  getitem df' col = Ok s' ->
  In (Some c) (cells s') ->
  In (Some c) (cells s).
Proof.
  intros E H E' Hin.
  rewrite (clean_data_closed df col s E), repaired_fills in H.
  injection H as <-.
  destruct (0 <? isna_sum s).
  - rewrite (getitem_take_rows _ _ col _
               (getitem_setitem df col s (bfill (ffill s)) E)) in E'.
    injection E' as <-.
    rewrite cells_select_series in Hin.
    apply In_select in Hin. apply In_cells_filled, Hin.
  - rewrite E in E'. injection E' as <-. exact Hin.
Qed.

Lemma clean_data_no_new_values_witness :
  In (Some (Number (25 # 2)))
     (cells (FloatSeries [None; Some (25 # 2); None; Some (14 # 1)])).
Proof.
  apply (clean_data_no_new_values scenario_frame scenario_cleaned "caudal_m3s"
           (FloatSeries [None; Some (25 # 2); None; Some (14 # 1)])
           (FloatSeries [Some (25 # 2); Some (25 # 2); Some (25 # 2);
                         Some (14 # 1)]));
    try reflexivity.
  simpl. auto.
Defined.

(** ** clean_data of extract_rinihue_streamflow.py *)

Lemma extract_clean_data_closed (df : DataFrame) (col : string) (s : Series) :
  ExtractRinihue.identify_streamflow_column df = Ok col ->
  getitem df col = Ok s ->
  ExtractRinihue.clean_data df
  = Ok (take_rows (notna (repaired s)) (setitem df col (repaired s)), col).
Proof.
  intros Hid E. unfold ExtractRinihue.clean_data, repaired, dropna.
  rewrite Hid; simpl. rewrite E; simpl.
  rewrite (getitem_setitem _ _ _ _ E); simpl.
  destruct (0 <? isna_sum (bfill (ffill s))); simpl.
  - rewrite setitem_setitem, (getitem_setitem _ _ _ _ E); simpl.
    rewrite (getitem_take_rows _ _ _ _ (getitem_setitem _ _ _ _ E)).
    reflexivity.
  - rewrite (getitem_setitem _ _ _ _ E); simpl.
    rewrite (getitem_take_rows _ _ _ _ (getitem_setitem _ _ _ _ E)).
    reflexivity.
Qed.

(** X6: on a rectangular frame clean_data of extract_rinihue_streamflow.py,
    which repairs without first counting the gaps, returns what clean_data
    of plot_1960_2025.py returns for the column it identifies; it raises
    ValueError when it identifies none. *)
Theorem extract_clean_data_agrees (df : DataFrame) :
  rectangular df = true ->
  ExtractRinihue.clean_data df
  = match ExtractRinihue.identify_streamflow_column df with
    | Ok col =>
        df' <- Plot19602025.clean_data df col ;; Ok (df', col)
    | Raise e => Raise e
    end /\
  (ExtractRinihue.identify_streamflow_column df = Raise ValueError \/
   exists col, ExtractRinihue.identify_streamflow_column df = Ok col).
Proof.
  intros Hr. split.
  - destruct (ExtractRinihue.identify_streamflow_column df) as [col|e] eqn:Hid.
    + destruct (getitem df col) as [s|e] eqn:E.
      * rewrite (extract_clean_data_closed df col s Hid E),
          (clean_data_closed df col s E). simpl.
        destruct (0 <? isna_sum s) eqn:Hmiss; [reflexivity|].
        apply Nat.ltb_ge in Hmiss.
        assert (Hs : isna_sum s = 0) by lia.
        rewrite repaired_fills, (ffill_id s Hs).
        assert (bfill s = s) as ->.
        { revert Hs. unfold isna_sum. destruct s; simpl; intros Hs;
            rewrite bfill_list_valid; auto. }
        rewrite (setitem_getitem _ _ _ E).
        rewrite take_rows_all; auto.
        -- apply isna_sum_zero_notna; auto.
        -- rewrite notna_length, (rectangular_getitem df col s Hr E).
           reflexivity.
      * unfold ExtractRinihue.clean_data, Plot19602025.clean_data.
        rewrite Hid; simpl. rewrite E. reflexivity.
    + unfold ExtractRinihue.clean_data. rewrite Hid. reflexivity.
  - unfold ExtractRinihue.identify_streamflow_column.
    destruct (find _ (column_names df)); [right; eauto|].
    destruct (filter _ (numeric_columns df)); [left | right]; eauto.
Qed.

Lemma extract_clean_data_agrees_witness :
  ExtractRinihue.clean_data scenario_frame
  = match ExtractRinihue.identify_streamflow_column scenario_frame with
    | Ok col =>
        df' <- Plot19602025.clean_data scenario_frame col ;; Ok (df', col)
    | Raise e => Raise e
    end /\
  (ExtractRinihue.identify_streamflow_column scenario_frame = Raise ValueError \/
   exists col, ExtractRinihue.identify_streamflow_column scenario_frame = Ok col).
Proof.
  apply (extract_clean_data_agrees scenario_frame); reflexivity.
Defined.

(** A table of text without a term in its header: nothing to clean. *)
Example extract_clean_data_raises :
  ExtractRinihue.clean_data
    (mkFrame [0] [mkColumn "estacion" (ObjectSeries [Some "Rinihue"])])
  = Raise ValueError.
Proof. reflexivity. Qed.

(** ** What identify_columns returns *)

Lemma mem_In (x : string) (l : list string) : mem x l = true <-> In x l.
Proof.
  unfold mem. rewrite existsb_exists. split.
  - intros [y [Hin Heq]]. apply String.eqb_eq in Heq. subst; auto.
  - intros Hin. exists x. split; auto. apply String.eqb_refl.
Qed.

Lemma In_remove_first (x d : string) (l : list string) :
  In x (remove_first d l) -> In x l.
Proof.
  induction l as [|y r IH]; simpl; auto.
  destruct (String.eqb d y); simpl; tauto.
Qed.

Lemma In_numeric_columns (x : string) (df : DataFrame) :
  In x (numeric_columns df) -> In x (column_names df).
Proof.
  unfold numeric_columns, column_names. rewrite !in_map_iff.
  intros [c [Hc Hin]]. apply filter_In in Hin as [Hin _]. eauto.
Qed.

Lemma unique_numeric_columns (df : DataFrame) :
  unique (column_names df) = true -> unique (numeric_columns df) = true.
Proof.
  unfold numeric_columns, column_names. destruct df as [idx cols]; simpl.
  induction cols as [|c r IH]; simpl; auto.
  intros H. apply andb_true_iff in H as [Hc Hr].
  destruct (is_number (data c)); simpl; auto.
  rewrite IH by auto. rewrite andb_true_r.
  apply negb_true_iff. apply negb_true_iff in Hc.
  destruct (mem (name c) (map name (filter _ r))) eqn:M; auto.
  apply mem_In, in_map_iff in M as [c' [Hn Hin]].
  apply filter_In in Hin as [Hin _].
  assert (In (name c) (map name r)) by (apply in_map_iff; eauto).
  apply mem_In in H. congruence.
Qed.

Lemma remove_first_unique (d : string) (l : list string) :
  unique l = true -> mem d (remove_first d l) = false.
Proof.
  induction l as [|y r IH]; simpl; auto.
  intros H. apply andb_true_iff in H as [Hy Hr].
  destruct (String.eqb d y) eqn:E.
  - apply String.eqb_eq in E; subst. apply negb_true_iff, Hy.
  - rewrite mem_eqb_cons, E. simpl. auto.
Qed.

Ltac split_date_column :=
  match goal with
  | |- context [Common.truthy (find ?p ?l)] =>
      let d := fresh "d" in
      let G := fresh "G" in
      destruct (find p l) as [d|] eqn:G
  end.

Ltac split_name_pass :=
  match goal with
  | |- context [match find ?p ?l with Some _ => _ | None => hd_error _ end] =>
      let c := fresh "c" in
      let F := fresh "F" in
      destruct (find p l) as [c|] eqn:F
  end.

Lemma plot_identify_in_frame (df : DataFrame) :
  (forall x, fst (Plot19602025.identify_columns df) = Some x ->
             In x (column_names df)) /\
  (forall x, snd (Plot19602025.identify_columns df) = Some x ->
             In x (column_names df)).
Proof.
  unfold Plot19602025.identify_columns. cbv zeta. cbn [fst snd]. split.
  - intros x H. apply find_some in H. tauto.
  - intros x. split_date_column; split_name_pass;
      try (intros [= ->]; apply find_some in F; tauto);
      intros H; apply hd_error_In, filter_In in H as [H _];
      try (destruct (_ && _); [apply In_remove_first in H|]);
      apply In_numeric_columns, H.
Qed.

Lemma download_identify_in_frame (df : DataFrame) :
  (forall x, fst (DownloadAndPlot.identify_columns df) = Some x ->
             In x (column_names df)) /\
  (forall x, snd (DownloadAndPlot.identify_columns df) = Some x ->
             In x (column_names df)).
Proof.
  unfold DownloadAndPlot.identify_columns. cbv zeta. cbn [fst snd]. split.
  - intros x H. apply find_some in H. tauto.
  - intros x. split_date_column; split_name_pass;
      try (intros [= ->]; apply find_some in F; tauto);
      intros H; apply hd_error_In in H;
      try (destruct (_ && _); [apply In_remove_first in H|]);
      apply In_numeric_columns, H.
Qed.

(** X7: the columns identify_columns returns (plot_1960_2025.py as
    download_and_plot.py) are columns of the frame, so with unique column
    names looking them up never raises KeyError. *)
Theorem identified_columns_exist (df : DataFrame) :
  unique (column_names df) = true ->
  (forall x, fst (Plot19602025.identify_columns df) = Some x ->
             exists s, getitem df x = Ok s) /\
  (forall x, snd (Plot19602025.identify_columns df) = Some x ->
             exists s, getitem df x = Ok s) /\
  (forall x, fst (DownloadAndPlot.identify_columns df) = Some x ->
             exists s, getitem df x = Ok s) /\
  (forall x, snd (DownloadAndPlot.identify_columns df) = Some x ->
             exists s, getitem df x = Ok s).
Proof.
  intros Hu.
  destruct (plot_identify_in_frame df) as [P1 P2].
  destruct (download_identify_in_frame df) as [D1 D2].
  repeat split; intros x H; apply getitem_unique; auto; apply mem_In; auto.
Qed.

Lemma identified_columns_exist_witness :
  (forall x, fst (Plot19602025.identify_columns scenario_frame) = Some x ->
             exists s, getitem scenario_frame x = Ok s) /\
  (forall x, snd (Plot19602025.identify_columns scenario_frame) = Some x ->
             exists s, getitem scenario_frame x = Ok s) /\
  (forall x, fst (DownloadAndPlot.identify_columns scenario_frame) = Some x ->
             exists s, getitem scenario_frame x = Ok s) /\
  (forall x, snd (DownloadAndPlot.identify_columns scenario_frame) = Some x ->
             exists s, getitem scenario_frame x = Ok s).
Proof.
  apply (identified_columns_exist scenario_frame); reflexivity.
Defined.

Lemma fallback_skips_date (d : string) (numeric_cols : list string) :
  unique numeric_cols = true ->
  d <> EmptyString ->
  ~ In d (if Common.truthy (Some d) && mem d numeric_cols
          then remove_first d numeric_cols else numeric_cols).
Proof.
  intros Hu Hd Hin.
  assert (Ht : Common.truthy (Some d) = true).
  { simpl. apply negb_true_iff. apply String.eqb_neq. exact Hd. }
  rewrite Ht in Hin. simpl in Hin.
  destruct (mem d numeric_cols) eqn:M.
  - apply mem_In in Hin. rewrite remove_first_unique in Hin by auto.
    discriminate.
  - apply mem_In in Hin. congruence.
Qed.

(** X8: with unique column names, identify_columns returns one column as
    date column and value column only when its name has a streamflow term
    in it: the fallback to the first numeric column never returns the date
    column. *)
Theorem value_is_date_only_by_name (df : DataFrame) (d : string) :
  unique (column_names df) = true ->
  (Plot19602025.identify_columns df = (Some d, Some d) ->
   any_in Plot19602025.flow_terms (lower d) = true) /\
  (DownloadAndPlot.identify_columns df = (Some d, Some d) ->
   any_in DownloadAndPlot.flow_terms (lower d) = true).
Proof.
  intros Hu. pose proof (unique_numeric_columns df Hu) as Hn. split.
  - unfold Plot19602025.identify_columns. cbv zeta.
    split_date_column; [|discriminate].
    split_name_pass.
    + intros [= _ ->]. apply find_some in F as [_ F].
      apply andb_true_iff in F. tauto.
    + intros [= -> H]. exfalso.
      apply hd_error_In, filter_In in H as [H _].
      apply (fallback_skips_date d (numeric_columns df) Hn); auto.
      intros ->. apply find_some in G as [_ G]. discriminate G.
  - unfold DownloadAndPlot.identify_columns. cbv zeta.
    split_date_column; [|discriminate].
    split_name_pass.
    + intros [= _ ->]. apply find_some in F as [_ F]. exact F.
    + intros [= -> H]. exfalso.
      apply hd_error_In in H.
      apply (fallback_skips_date d (numeric_columns df) Hn); auto.
      intros ->. apply find_some in G as [_ G]. discriminate G.
Qed.

Lemma value_is_date_only_by_name_witness :
  (Plot19602025.identify_columns date_flow_frame
   = (Some "date_flow", Some "date_flow") ->
   any_in Plot19602025.flow_terms (lower "date_flow") = true) /\
  (DownloadAndPlot.identify_columns date_flow_frame
   = (Some "date_flow", Some "date_flow") ->
   any_in DownloadAndPlot.flow_terms (lower "date_flow") = true).
Proof.
  apply (value_is_date_only_by_name date_flow_frame "date_flow"); reflexivity.
Defined.

(** The name pass does not look at the date column: one column can get
    both roles. *)
Example date_flow_both_roles :
  Plot19602025.identify_columns date_flow_frame
  = (Some "date_flow", Some "date_flow").
Proof. reflexivity. Qed.

(** ** Column names up to case *)

Lemma lower_upper_ascii (c : ascii) : lower_ascii (upper_ascii c) = lower_ascii c.
Proof. destruct c as [[] [] [] [] [] [] [] []]; reflexivity. Qed.

Lemma lower_upper (s : string) : lower (upper s) = lower s.
Proof.
  induction s as [|c r IH]; simpl; [|rewrite IH, lower_upper_ascii];
    reflexivity.
Qed.

Lemma lower_empty (s : string) : lower s = EmptyString -> s = EmptyString.
Proof. destruct s; simpl; [reflexivity | discriminate]. Qed.

Lemma unique_map_injective {A} (g : A -> string) (l : list A) (a b : A) :
  unique (map g l) = true -> In a l -> In b l -> g a = g b -> a = b.
Proof.
  induction l as [|x r IH]; simpl; [tauto|].
  intros H Ha Hb Hg. apply andb_true_iff in H as [Hx Hr].
  apply negb_true_iff in Hx.
  assert (Hout : forall y, In y r -> g y <> g x).
  { intros y Hy Heq.
    assert (In (g x) (map g r)) by (rewrite <- Heq; apply in_map, Hy).
    apply mem_In in H. congruence. }
  destruct Ha as [<-|Ha], Hb as [<-|Hb]; auto.
  - exfalso. apply (Hout b Hb). auto.
  - exfalso. apply (Hout a Ha). auto.
Qed.

Lemma find_map_ext {A B} (f : A -> B) (p : B -> bool) (q : A -> bool)
    (l : list A) :
  (forall x, p (f x) = q x) ->
  find p (map f l) = option_map f (find q l).
Proof.
  intros H. induction l as [|x r IH]; simpl; auto.
  rewrite H. destruct (q x); auto.
Qed.

Lemma filter_map_ext {A B} (f : A -> B) (p : B -> bool) (q : A -> bool)
    (l : list A) :
  (forall x, p (f x) = q x) ->
  filter p (map f l) = map f (filter q l).
Proof.
  intros H. induction l as [|x r IH]; simpl; auto.
  rewrite H. destruct (q x); simpl; rewrite IH; auto.
Qed.

Lemma hd_error_map {A B} (f : A -> B) (l : list A) :
  hd_error (map f l) = option_map f (hd_error l).
Proof. destruct l; reflexivity. Qed.

Lemma column_names_rename (f : string -> string) (df : DataFrame) :
  column_names (rename_columns f df) = map f (column_names df).
Proof.
  unfold column_names, rename_columns; simpl. rewrite !map_map. reflexivity.
Qed.

Lemma numeric_columns_rename (f : string -> string) (df : DataFrame) :
  numeric_columns (rename_columns f df) = map f (numeric_columns df).
Proof.
  unfold numeric_columns, rename_columns; simpl.
  induction (columns df) as [|c r IH]; simpl; auto.
  destruct (is_number (data c)); simpl; rewrite IH; reflexivity.
Qed.

Section Renaming.

Variable f : string -> string.
Variable names : list string.
Hypothesis f_injective :
  forall a b, In a names -> In b names -> f a = f b -> a = b.

Lemma mem_map_injective (d : string) (l : list string) :
  In d names -> incl l names -> mem (f d) (map f l) = mem d l.
Proof.
  intros Hd Hl. destruct (mem d l) eqn:M.
  - apply mem_In. apply in_map. apply mem_In. exact M.
  - destruct (mem (f d) (map f l)) eqn:M'; auto.
    apply mem_In, in_map_iff in M' as [y [Hy Hin]].
    apply f_injective in Hy; auto. subst y.
    apply mem_In in Hin. congruence.
Qed.

Lemma remove_first_map_injective (d : string) (l : list string) :
  In d names -> incl l names ->
  remove_first (f d) (map f l) = map f (remove_first d l).
Proof.
  intros Hd. induction l as [|y r IH]; simpl; intros Hl; auto.
  assert (Hy : In y names) by (apply Hl; left; reflexivity).
  assert (Hr : incl r names) by (intros z Hz; apply Hl; right; exact Hz).
  destruct (String.eqb d y) eqn:E.
  - apply String.eqb_eq in E. subst. rewrite String.eqb_refl. reflexivity.
  - destruct (String.eqb (f d) (f y)) eqn:E'.
    + apply String.eqb_eq in E'. apply f_injective in E'; auto.
      subst. rewrite String.eqb_refl in E. discriminate.
    + simpl. rewrite IH; auto.
Qed.

End Renaming.

Lemma truthy_rename (f : string -> string) (d : string) :
  lower (f d) = lower d ->
  Common.truthy (Some (f d)) = Common.truthy (Some d).
Proof.
  intros H. simpl. f_equal.
  destruct (String.eqb d EmptyString) eqn:E.
  - apply String.eqb_eq in E. subst d. simpl in H.
    apply lower_empty in H. rewrite H. reflexivity.
  - destruct (String.eqb (f d) EmptyString) eqn:E'; auto.
    apply String.eqb_eq in E'. rewrite E' in H. simpl in H.
    symmetry in H. apply lower_empty in H. subst.
    rewrite String.eqb_refl in E. discriminate.
Qed.

Lemma fallback_rename (f : string -> string) (df : DataFrame)
    (date_col : option string) :
  (forall n, lower (f n) = lower n) ->
  unique (map lower (column_names df)) = true ->
  (forall d, date_col = Some d -> In d (column_names df)) ->
  match option_map f date_col with
  | Some d =>
      if Common.truthy (option_map f date_col)
         && mem d (numeric_columns (rename_columns f df))
      then remove_first d (numeric_columns (rename_columns f df))
      else numeric_columns (rename_columns f df)
  | None => numeric_columns (rename_columns f df)
  end
  = map f
      match date_col with
      | Some d =>
          if Common.truthy date_col && mem d (numeric_columns df)
          then remove_first d (numeric_columns df)
          else numeric_columns df
      | None => numeric_columns df
      end.
Proof.
  intros Hlow Hu Hd. rewrite numeric_columns_rename.
  destruct date_col as [d|]; simpl option_map; cbv iota; auto.
  assert (Hinj : forall a b, In a (column_names df) -> In b (column_names df) ->
                             f a = f b -> a = b).
  { intros a b Ha Hb Hab.
    apply (unique_map_injective lower (column_names df)); auto.
    rewrite <- (Hlow a), <- (Hlow b), Hab. reflexivity. }
  assert (Hincl : incl (numeric_columns df) (column_names df))
    by (intros x; apply In_numeric_columns).
  rewrite (truthy_rename f d (Hlow d)).
  rewrite (mem_map_injective f _ Hinj d _ (Hd d eq_refl) Hincl).
  rewrite (remove_first_map_injective f _ Hinj d _ (Hd d eq_refl) Hincl).
  destruct (_ && _); reflexivity.
Qed.

Ltac push_find Hlow :=
  repeat match goal with
  | |- context [find ?p (map ?g ?l)] =>
      rewrite (find_map_ext g p p l)
        by (intros; cbv beta; rewrite ?Hlow; reflexivity)
  end.

(** X9: identify_columns does not depend on the case of the column names:
    when no two names are equal up to case and the columns are renamed
    without changing their lower-case form, it picks the same columns under
    their new names. *)
Theorem identify_columns_ignores_case (f : string -> string) (df : DataFrame) :
  (forall n, lower (f n) = lower n) ->
  unique (map lower (column_names df)) = true ->
  Plot19602025.identify_columns (rename_columns f df)
  = (option_map f (fst (Plot19602025.identify_columns df)),
     option_map f (snd (Plot19602025.identify_columns df))) /\
  DownloadAndPlot.identify_columns (rename_columns f df)
  = (option_map f (fst (DownloadAndPlot.identify_columns df)),
     option_map f (snd (DownloadAndPlot.identify_columns df))).
Proof.
  intros Hlow Hu. split.
  - unfold Plot19602025.identify_columns. cbv zeta. cbn [fst snd].
    rewrite column_names_rename. push_find Hlow. f_equal.
    remember (find (fun col => any_in Plot19602025.date_terms (lower col))
                   (column_names df)) as date_col eqn:Hdc.
    assert (Hd : forall d, date_col = Some d -> In d (column_names df))
      by (intros d H; rewrite H in Hdc; symmetry in Hdc;
          apply find_some in Hdc; tauto).
    clear Hdc.
    destruct (find _ (column_names df)) as [c|]; [reflexivity|].
    simpl option_map at 1. cbv iota.
    rewrite (fallback_rename f df date_col Hlow Hu Hd).
    rewrite (filter_map_ext f _
               (fun col => negb (mem (lower col) Plot19602025.exclude)))
      by (intros; cbv beta; rewrite Hlow; reflexivity).
    apply hd_error_map.
  - unfold DownloadAndPlot.identify_columns. cbv zeta. cbn [fst snd].
    rewrite column_names_rename. push_find Hlow. f_equal.
    remember (find (fun col => any_in DownloadAndPlot.date_terms (lower col))
                   (column_names df)) as date_col eqn:Hdc.
    assert (Hd : forall d, date_col = Some d -> In d (column_names df))
      by (intros d H; rewrite H in Hdc; symmetry in Hdc;
          apply find_some in Hdc; tauto).
    clear Hdc.
    destruct (find _ (column_names df)) as [c|]; [reflexivity|].
    simpl option_map at 1. cbv iota.
    rewrite (fallback_rename f df date_col Hlow Hu Hd).
    apply hd_error_map.
Qed.

Lemma identify_columns_ignores_case_witness :
  Plot19602025.identify_columns (rename_columns upper scenario_frame)
  = (option_map upper (fst (Plot19602025.identify_columns scenario_frame)),
     option_map upper (snd (Plot19602025.identify_columns scenario_frame))) /\
  DownloadAndPlot.identify_columns (rename_columns upper scenario_frame)
  = (option_map upper (fst (DownloadAndPlot.identify_columns scenario_frame)),
     option_map upper (snd (DownloadAndPlot.identify_columns scenario_frame))).
Proof.
  apply (identify_columns_ignores_case upper scenario_frame);
    [exact lower_upper | reflexivity].
Defined.

(** In capitals the scenario header gives the same roles. *)
Example capital_header :
  Plot19602025.identify_columns (rename_columns upper scenario_frame)
  = (Some "FECHA", Some "CAUDAL_M3S").
Proof. reflexivity. Qed.

(** ** What create_plot draws *)

Lemma getitem_take_rows_eq (mask : list bool) (df : DataFrame) (col : string) :
  getitem (take_rows mask df) col
  = match getitem df col with
    | Ok s => Ok (select_series mask s)
    | Raise e => Raise e
    end.
Proof.
  unfold getitem, take_rows; destruct df as [idx cols]; simpl.
  assert (forall l,
    filter (fun c => String.eqb (name c) col)
      (map (fun c => mkColumn (name c) (select_series mask (data c))) l)
    = map (fun c => mkColumn (name c) (select_series mask (data c)))
        (filter (fun c => String.eqb (name c) col) l)) as ->.
  { induction l as [|c r IH]; simpl; auto.
    destruct (String.eqb (name c) col); simpl; rewrite IH; auto. }
  destruct (filter _ cols) as [|c [|d r]]; reflexivity.
Qed.

Lemma series_len_select (mask : list bool) (s : Series) :
  length mask = series_len s ->
  series_len (select_series mask s) = count_true mask.
Proof. destruct s; simpl; apply select_length. Qed.

Lemma count_true_select_le (mask l : list bool) :
  count_true (select mask l) <= count_true l.
Proof.
  unfold count_true.
  revert l; induction mask as [|b m IH]; intros [|x r]; simpl; try lia.
  specialize (IH r). destruct b, x; simpl; lia.
Qed.

Lemma isna_sum_select (mask : list bool) (s : Series) :
  isna_sum (select_series mask s) <= isna_sum s.
Proof.
  unfold isna_sum. destruct s; simpl; rewrite <- select_map;
    apply count_true_select_le.
Qed.

Lemma date_range_length (start : Timestamp) (n : nat) :
  length (date_range start n) = n.
Proof. unfold date_range. rewrite length_map, length_seq. reflexivity. Qed.

Lemma process_dates_length to_datetime (df : DataFrame)
    (date_col : option string) (dates : list (option Timestamp)) :
  (forall s, length (to_datetime s) = series_len s) ->
  rectangular df = true ->
  Common.process_dates to_datetime df date_col = Ok dates ->
  length dates = len df.
Proof.
  intros Hlen Hr. unfold Common.process_dates.
  destruct date_col as [d|].
  - destruct (_ && _).
    + destruct (getitem df d) as [s|e] eqn:E; simpl; [|discriminate].
      intros [= <-]. rewrite Hlen. eapply rectangular_getitem; eauto.
    + intros [= <-]. apply date_range_length.
  - intros [= <-]. apply date_range_length.
Qed.

Lemma iso_to_datetime_length (s : Series) :
  length (iso_to_datetime s) = series_len s.
Proof. destruct s; simpl; apply length_map. Qed.

Lemma forallb_repeat_true (n : nat) :
  forallb (fun b => b) (repeat true n) = true.
Proof. induction n; simpl; auto. Qed.

(** Whichever way the window step goes, it keeps the rows of a mask. *)
Lemma filter_window_mask (df df_plot : DataFrame)
    (dates dates_plot : list (option Timestamp)) :
  rectangular df = true ->
  length dates = len df ->
  Common.filter_window df dates = (df_plot, dates_plot) ->
  exists mask,
    length mask = len df /\
    df_plot = take_rows mask df /\
    dates_plot = select mask dates.
Proof.
  intros Hr Hd. unfold Common.filter_window.
  assert (Hwhole : exists mask,
             length mask = len df /\ df = take_rows mask df /\
             dates = select mask dates).
  { exists (repeat true (len df)).
    pose proof (forallb_repeat_true (len df)) as Hall.
    rewrite repeat_length.
    rewrite take_rows_all, select_all; auto; rewrite ?repeat_length; lia. }
  destruct (negb (all_nat dates)); [|intros [= <- <-]; exact Hwhole].
  cbv zeta. destruct (len _ =? 0); intros [= <- <-]; [exact Hwhole|].
  exists (Common.window_mask dates).
  rewrite window_mask_length. auto.
Qed.

(** X10: on a rectangular frame, with a date parser that returns one
    timestamp per entry, the chart create_plot saves has as many dates as
    values, the record count of its statistics box is that number, and it
    shows no missing value when the value column of the frame has none. *)
Theorem create_plot_chart_shape to_datetime (with_median : bool)
    (file : string) (w : World) (fs : Files) (df : DataFrame)
    (date_col : option string) (col : string) :
  (forall s, length (to_datetime s) = series_len s) ->
  rectangular df = true ->
  match Common.create_plot to_datetime with_median file w fs df date_col col
  with
  | (fs', Ok _) =>
      exists p,
        plot_png fs' = Some p /\
        length (plot_dates p) = series_len (plot_values p) /\
        stat_records (plot_stats p) = series_len (plot_values p) /\
        (forall s, getitem df col = Ok s -> isna_sum s = 0 ->
                   isna_sum (plot_values p) = 0)
  | (_, Raise _) => True
  end.
Proof.
  intros Hlen Hr. unfold Common.create_plot.
  destruct (Common.process_dates to_datetime df date_col) as [dates|e] eqn:P;
    simpl; [|exact I].
  pose proof (process_dates_length _ _ _ _ Hlen Hr P) as Hd.
  destruct (Common.filter_window df dates) as [df_plot dates_plot] eqn:F.
  destruct (filter_window_mask _ _ _ _ Hr Hd F) as (mask & Hm & -> & ->).
  rewrite getitem_take_rows_eq.
  destruct (getitem df col) as [values|e] eqn:G; simpl; [|exact I].
  pose proof (rectangular_getitem df col values Hr G) as Hv.
  assert (Hshape :
    length (select mask dates) = series_len (select_series mask values) /\
    len (take_rows mask df) = series_len (select_series mask values)).
  { rewrite series_len_select by congruence.
    rewrite select_length by congruence.
    rewrite len_take_rows by exact Hm. auto. }
  destruct Hshape as [H1 H2].
  pose proof (isna_sum_select mask values) as Hle.
  unfold describe, savefig.
  destruct (select_series mask values) as [xs|xs] eqn:S;
    [|destruct (valid_values xs)]; simpl; try exact I;
    destruct (can_write w file); try exact I;
    (eexists; repeat split; simpl in *; try congruence;
     intros s [= <-] Hs; lia).
Qed.

Lemma create_plot_chart_shape_witness :
  match Common.create_plot iso_to_datetime true Plot19602025.PLOT_FILE
          (world_with scenario_cleaned) no_files scenario_cleaned
          (Some "fecha") "caudal_m3s"
  with
  | (fs', Ok _) =>
      exists p,
        plot_png fs' = Some p /\
        length (plot_dates p) = series_len (plot_values p) /\
        stat_records (plot_stats p) = series_len (plot_values p) /\
        (forall s, getitem scenario_cleaned "caudal_m3s" = Ok s ->
                   isna_sum s = 0 -> isna_sum (plot_values p) = 0)
  | (_, Raise _) => True
  end.
Proof.
  apply (create_plot_chart_shape iso_to_datetime true Plot19602025.PLOT_FILE
           (world_with scenario_cleaned) no_files scenario_cleaned
           (Some "fecha") "caudal_m3s");
    [exact iso_to_datetime_length | reflexivity].
Defined.

(** ** The years in the title *)

Lemma fold_min_bounds (lo hi : Z) (r : list Z) (t : Z) :
  (lo <= t <= hi)%Z -> Forall (fun x => (lo <= x <= hi)%Z) r ->
  (lo <= fold_left Z.min r t <= hi)%Z /\ (fold_left Z.min r t <= t)%Z.
Proof.
  revert t; induction r as [|x r IH]; simpl; intros t Ht Hr; [lia|].
  inversion Hr as [|? ? Hx Hr']; subst.
  destruct (IH (Z.min t x)) as [Ha Hb]; auto; lia.
Qed.

Lemma fold_max_bounds (lo hi : Z) (r : list Z) (t : Z) :
  (lo <= t <= hi)%Z -> Forall (fun x => (lo <= x <= hi)%Z) r ->
  (lo <= fold_left Z.max r t <= hi)%Z /\ (t <= fold_left Z.max r t)%Z.
Proof.
  revert t; induction r as [|x r IH]; simpl; intros t Ht Hr; [lia|].
  inversion Hr as [|? ? Hx Hr']; subst.
  destruct (IH (Z.max t x)) as [Ha Hb]; auto; lia.
Qed.

Lemma select_window_valid (dates : list (option Timestamp)) :
  Forall (fun x => (Common.window_start <= x <= Common.window_end)%Z)
         (valid_dates (select (Common.window_mask dates) dates)) /\
  length (valid_dates (select (Common.window_mask dates) dates))
  = count_true (Common.window_mask dates) /\
  (0 < count_true (Common.window_mask dates) ->
   all_nat (select (Common.window_mask dates) dates) = false).
Proof.
  unfold Common.window_mask, count_true, all_nat.
  induction dates as [|[t|] r IH]; simpl.
  - repeat split; auto; lia.
  - destruct ((Common.window_start <=? t)%Z && (t <=? Common.window_end)%Z)
      eqn:E; simpl.
    + destruct IH as (Ha & Hb & Hc). repeat split; auto.
      constructor; auto.
      apply andb_true_iff in E as [E1 E2].
      apply Z.leb_le in E1, E2. lia.
    + exact IH.
  - exact IH.
Qed.

Lemma filter_window_cases (df : DataFrame) (dates : list (option Timestamp)) :
  length dates = len df ->
  0 < count_true (Common.window_mask dates) ->
  Common.filter_window df dates
  = (take_rows (Common.window_mask dates) df,
     select (Common.window_mask dates) dates).
Proof.
  intros Hlen Hpos. unfold Common.filter_window.
  rewrite len_take_rows by (rewrite window_mask_length; exact Hlen).
  destruct (all_nat dates) eqn:Hall; simpl.
  - apply window_mask_all_nat in Hall. lia.
  - destruct (count_true (Common.window_mask dates)); [lia | reflexivity].
Qed.

(** X11: when at least one row has its date in the window, the first and
    the last date that create_plot puts in the title lie in
    [1960-01-01, 2025-12-31], the first not after the last. *)
Theorem title_span_in_window (df : DataFrame)
    (dates : list (option Timestamp)) :
  length dates = len df ->
  0 < count_true (Common.window_mask dates) ->
  exists first last,
    Common.date_span (snd (Common.filter_window df dates))
    = Some (first, last) /\
    (Common.window_start <= first)%Z /\
    (first <= last)%Z /\
    (last <= Common.window_end)%Z.
Proof.
  intros Hlen Hpos. rewrite (filter_window_cases df dates Hlen Hpos).
  cbn [snd]. unfold Common.date_span.
  destruct (select_window_valid dates) as (Hin & Hcount & Hnat).
  rewrite (Hnat Hpos).
  assert (Hsel : length (select (Common.window_mask dates) dates)
                 = count_true (Common.window_mask dates))
    by (apply select_length, window_mask_length).
  rewrite Hsel. destruct (Nat.ltb_spec 0 (count_true (Common.window_mask dates)));
    [|lia]. simpl.
  destruct (valid_dates (select (Common.window_mask dates) dates))
    as [|t r]; [simpl in Hcount; lia|].
  inversion Hin as [|? ? Ht Hr]; subst.
  destruct (fold_min_bounds _ _ r t Ht Hr) as [Ha Hb].
  destruct (fold_max_bounds _ _ r t Ht Hr) as [Hc Hd].
  eexists _, _. split; [reflexivity|]. lia.
Qed.

Lemma title_span_in_window_witness :
  exists first last,
    Common.date_span
      (snd (Common.filter_window scenario_cleaned
              (iso_to_datetime
                 (ObjectSeries [Some "1959-12-31"; Some "1961-01-02";
                                Some "1961-01-03"; Some "2026-01-01"]))))
    = Some (first, last) /\
    (Common.window_start <= first)%Z /\
    (first <= last)%Z /\
    (last <= Common.window_end)%Z.
Proof.
  apply (title_span_in_window scenario_cleaned); [reflexivity|].
  vm_compute. lia.
Defined.

(** When nothing is in the window the title takes the years of what is
    plotted instead. *)
Example title_span_outside_window :
  Common.date_span
    (snd (Common.filter_window interior_frame
            (iso_to_datetime
               (ObjectSeries [Some "2031-01-01"; Some "2031-01-02";
                              Some "2031-01-03"; Some "2031-01-04"]))))
  = Some (timestamp 2031 1 1, timestamp 2031 1 4).
Proof. reflexivity. Qed.

(** ** Generated dates and the window *)

Lemma window_bounds :
  Common.window_start = (- 3653 * ns_per_day)%Z /\
  Common.window_end = (20453 * ns_per_day)%Z.
Proof. split; reflexivity. Qed.

Lemma in_window_generated (i : nat) :
  Common.in_window
    (Some (timestamp 1960 1 1 + Z.of_nat i * ns_per_day)%Z)
  = (Z.of_nat i <=? 24106)%Z.
Proof.
  unfold Common.in_window.
  destruct window_bounds as [-> ->].
  change (timestamp 1960 1 1) with (- 3653 * ns_per_day)%Z.
  unfold ns_per_day.
  destruct (Z.leb_spec (Z.of_nat i) 24106);
    [apply andb_true_iff; split; apply Z.leb_le; lia|].
  apply andb_false_iff. right. apply Z.leb_gt. lia.
Qed.

Lemma count_true_app (l l' : list bool) :
  count_true (l ++ l') = count_true l + count_true l'.
Proof.
  unfold count_true. rewrite filter_app, length_app. reflexivity.
Qed.

Lemma generated_in_window (n : nat) :
  Z.of_nat (count_true
              (Common.window_mask (date_range (timestamp 1960 1 1) n)))
  = Z.min (Z.of_nat n) 24107.
Proof.
  unfold Common.window_mask, date_range.
  induction n as [|n IH]; [reflexivity|].
  rewrite seq_S, !map_app, count_true_app, Nat2Z.inj_add.
  match goal with
  | |- (?a + _)%Z = _ =>
      replace a with (Z.min (Z.of_nat n) 24107) by (symmetry; exact IH)
  end.
  cbn [map Nat.add]. rewrite in_window_generated.
  destruct (Z.leb_spec (Z.of_nat n) 24106); cbn; lia.
Qed.

(** X12: without a date column plot_1960_2025.py and download_and_plot.py
    plot min(n, 24107) of the n rows, 24107 being the days from 1960-01-01
    to 2025-12-31: the generated dates go through the window like parsed
    ones.  extract_rinihue_streamflow.py plots every row, as it filters
    only when it found a date column.  The frame has at most 100000 rows,
    and every generated date is then one pandas holds. *)
Theorem generated_dates_are_cut
    (to_datetime : Series -> list (option Timestamp)) (df : DataFrame) :
  (Z.of_nat (len df) <= 100000)%Z ->
  (exists dates,
     Common.process_dates to_datetime df None = Ok dates /\
     forallb representable dates = true /\
     Z.of_nat (len (fst (Common.filter_window df dates)))
     = Z.min (Z.of_nat (len df)) 24107) /\
  (exists dates,
     ExtractRinihue.plot_dates to_datetime df None = Ok dates /\
     forallb representable dates = true /\
     fst (ExtractRinihue.filter_window df None dates) = df).
Proof.
  intros Hn. destruct (generated_representable (len df) Hn) as [H60 H70].
  split; eexists; (split; [reflexivity|]); (split; [|]);
    [exact H60 | | destruct (20000 <? Z.of_nat (len df))%Z; assumption
     | reflexivity].
  set (dates := date_range (timestamp 1960 1 1) (len df)).
  pose proof (generated_in_window (len df)) as Hc. fold dates in Hc.
  assert (Hlen : length dates = len df) by apply date_range_length.
  destruct (count_true (Common.window_mask dates)) as [|k] eqn:E.
  - assert (len df = 0) by lia.
    unfold Common.filter_window.
    destruct (negb (all_nat dates)); cbv zeta;
      [destruct (len _ =? 0)|]; cbn [fst];
      rewrite ?len_take_rows, ?E by (rewrite window_mask_length; exact Hlen);
      lia.
  - rewrite (filter_window_cases df dates Hlen) by lia.
    cbn [fst]. rewrite len_take_rows, E
      by (rewrite window_mask_length; exact Hlen).
    exact Hc.
Qed.

Lemma generated_dates_are_cut_witness :
  (exists dates,
     Common.process_dates iso_to_datetime undated_frame None = Ok dates /\
     forallb representable dates = true /\
     Z.of_nat (len (fst (Common.filter_window undated_frame dates)))
     = Z.min (Z.of_nat (len undated_frame)) 24107) /\
  (exists dates,
     ExtractRinihue.plot_dates iso_to_datetime undated_frame None
     = Ok dates /\
     forallb representable dates = true /\
     fst (ExtractRinihue.filter_window undated_frame None dates)
     = undated_frame).
Proof.
  apply (generated_dates_are_cut iso_to_datetime undated_frame).
  vm_compute. discriminate.
Defined.

(** ** What a run that returns 0 has done *)

Lemma clean_data_no_missing (df df' : DataFrame) (col : string) :
  Plot19602025.clean_data df col = Ok df' ->
  exists s, getitem df' col = Ok s /\ isna_sum s = 0.
Proof.
  intros Hc.
  destruct (getitem df col) as [s|e] eqn:E;
    [|unfold Plot19602025.clean_data in Hc; cbv zeta in Hc;
      rewrite E in Hc; discriminate].
  rewrite (clean_data_closed df col s E) in Hc. injection Hc as <-.
  destruct (0 <? isna_sum s) eqn:Hmiss.
  - exists (select_series (notna (repaired s)) (repaired s)). split.
    + apply getitem_take_rows. eapply getitem_setitem; eauto.
    + apply isna_sum_select_notna.
  - exists s. split; auto. apply Nat.ltb_ge in Hmiss. lia.
Qed.

Lemma to_csv_ok (w : World) (fs fs' : Files) (path : string)
    (df : DataFrame) :
  to_csv w fs path df = Ok fs' ->
  can_write w path = true /\ fs' = mkFiles (Some df) (plot_png fs).
Proof.
  unfold to_csv. destruct (can_write w path); [|discriminate].
  intros [= <-]. auto.
Qed.

Lemma create_plot_ok to_datetime (with_median : bool) (file : string)
    (w : World) (fs fs' : Files) (df : DataFrame)
    (date_col : option string) (col : string) (u : unit) :
  Common.create_plot to_datetime with_median file w fs df date_col col
  = (fs', Ok u) ->
  can_write w file = true /\
  exists p, fs' = mkFiles (cleaned_csv fs) (Some p).
Proof.
  unfold Common.create_plot.
  destruct (Common.process_dates to_datetime df date_col) as [dates|e];
    [|discriminate].
  simpl. destruct (Common.filter_window df dates) as [df_plot dates_plot].
  destruct (getitem df_plot col) as [values|e]; [|discriminate].
  simpl. destruct (describe _ _ _) as [stats|e]; [|discriminate].
  simpl. unfold savefig. destruct (can_write w file); [|discriminate].
  intros [= <-]. eauto.
Qed.

(** X13: when main of plot_1960_2025.py returns 0, a data file was found
    and loaded, a value column was identified, both output paths could be
    written, and the table saved is what clean_data returned for that
    column: it has no missing value in it.  The chart is saved with it. *)
Theorem plot_main_exit_zero to_datetime (w : World) (fs : Files) :
  Plot19602025.main to_datetime w = (fs, Exit 0) ->
  exists data_file df date_col col df_clean s p,
    Plot19602025.find_data_file w = Some data_file /\
    snd (Plot19602025.load_data w data_file) = Some df /\
    Plot19602025.identify_columns df = (date_col, Some col) /\
    Plot19602025.clean_data df col = Ok df_clean /\
    getitem df_clean col = Ok s /\
    isna_sum s = 0 /\
    can_write w Plot19602025.OUTPUT_CSV = true /\
    can_write w Plot19602025.PLOT_FILE = true /\
    fs = mkFiles (Some df_clean) (Some p).
Proof.
  unfold Plot19602025.main, Plot19602025.create_plot.
  destruct (Plot19602025.find_data_file w) as [data_file|] eqn:Hf;
    [|discriminate].
  destruct (snd (Plot19602025.load_data w data_file)) as [df|] eqn:Hl;
    [|discriminate].
  destruct (Plot19602025.identify_columns df) as [date_col [col|]] eqn:Hi;
    [|discriminate].
  destruct (Plot19602025.clean_data df col) as [df_clean|e] eqn:Hc;
    [|discriminate].
  destruct (to_csv w no_files Plot19602025.OUTPUT_CSV df_clean)
    as [fs1|e] eqn:Ht; [|discriminate].
  destruct (Common.create_plot _ _ _ _ _ _ _ _) as [fs' [u|e]] eqn:Hp;
    [|discriminate].
  intros [= <-].
  destruct (clean_data_no_missing df df_clean col Hc) as (s & G & Hz).
  destruct (to_csv_ok _ _ _ _ _ Ht) as [Hw1 ->].
  destruct (create_plot_ok _ _ _ _ _ _ _ _ _ _ Hp) as (Hw2 & p & ->).
  exists data_file, df, date_col, col, df_clean, s, p.
  repeat (split; [solve [auto] |]). reflexivity.
Qed.

Lemma plot_main_exit_zero_witness :
  exists data_file df date_col col df_clean s p,
    Plot19602025.find_data_file (world_with scenario_frame)
    = Some data_file /\
    snd (Plot19602025.load_data (world_with scenario_frame) data_file)
    = Some df /\
    Plot19602025.identify_columns df = (date_col, Some col) /\
    Plot19602025.clean_data df col = Ok df_clean /\
    getitem df_clean col = Ok s /\
    isna_sum s = 0 /\
    can_write (world_with scenario_frame) Plot19602025.OUTPUT_CSV = true /\
    can_write (world_with scenario_frame) Plot19602025.PLOT_FILE = true /\
    fst (Plot19602025.main iso_to_datetime (world_with scenario_frame))
    = mkFiles (Some df_clean) (Some p).
Proof.
  apply (plot_main_exit_zero iso_to_datetime (world_with scenario_frame)
           (fst (Plot19602025.main iso_to_datetime
                   (world_with scenario_frame)))).
  reflexivity.
Defined.

(** X14: the same for main of download_and_plot.py: when it returns 0 the
    payload was downloaded and loaded, a value column was identified, both
    output paths could be written, and the table saved is what clean_data
    returned for that column, without a missing value in it. *)
Theorem download_main_exit_zero to_datetime (w : World) (fs : Files) :
  DownloadAndPlot.main to_datetime w = (fs, Exit 0) ->
  exists data_file df date_col col df_clean s p,
    DownloadAndPlot.download_data w = Some data_file /\
    snd (DownloadAndPlot.load_and_process_data w data_file) = Some df /\
    DownloadAndPlot.identify_columns df = (date_col, Some col) /\
    DownloadAndPlot.clean_data df col = Ok df_clean /\
    getitem df_clean col = Ok s /\
    isna_sum s = 0 /\
    can_write w DownloadAndPlot.OUTPUT_CSV = true /\
    can_write w DownloadAndPlot.PLOT_FILE = true /\
    fs = mkFiles (Some df_clean) (Some p).
Proof.
  unfold DownloadAndPlot.main, DownloadAndPlot.create_plot.
  destruct (DownloadAndPlot.download_data w) as [data_file|] eqn:Hf;
    [|discriminate].
  destruct (snd (DownloadAndPlot.load_and_process_data w data_file))
    as [df|] eqn:Hl; [|discriminate].
  destruct (DownloadAndPlot.identify_columns df) as [date_col [col|]] eqn:Hi;
    [|discriminate].
  destruct (DownloadAndPlot.clean_data df col) as [df_clean|e] eqn:Hc;
    [|discriminate].
  destruct (to_csv w no_files DownloadAndPlot.OUTPUT_CSV df_clean)
    as [fs1|e] eqn:Ht; [|discriminate].
  destruct (Common.create_plot _ _ _ _ _ _ _ _) as [fs' [u|e]] eqn:Hp;
    [|discriminate].
  intros [= <-].
  pose proof Hc as Hc'. rewrite clean_data_same in Hc'.
  destruct (clean_data_no_missing df df_clean col Hc') as (s & G & Hz).
  destruct (to_csv_ok _ _ _ _ _ Ht) as [Hw1 ->].
  destruct (create_plot_ok _ _ _ _ _ _ _ _ _ _ Hp) as (Hw2 & p & ->).
  exists data_file, df, date_col, col, df_clean, s, p.
  repeat (split; [solve [auto] |]). reflexivity.
Qed.

Lemma download_main_exit_zero_witness :
  exists data_file df date_col col df_clean s p,
    DownloadAndPlot.download_data (world_with scenario_frame)
    = Some data_file /\
    snd (DownloadAndPlot.load_and_process_data (world_with scenario_frame)
           data_file) = Some df /\
    DownloadAndPlot.identify_columns df = (date_col, Some col) /\
    DownloadAndPlot.clean_data df col = Ok df_clean /\
    getitem df_clean col = Ok s /\
    isna_sum s = 0 /\
    can_write (world_with scenario_frame) DownloadAndPlot.OUTPUT_CSV = true /\
    can_write (world_with scenario_frame) DownloadAndPlot.PLOT_FILE = true /\
    fst (DownloadAndPlot.main iso_to_datetime (world_with scenario_frame))
    = mkFiles (Some df_clean) (Some p).
Proof.
  apply (download_main_exit_zero iso_to_datetime (world_with scenario_frame)
           (fst (DownloadAndPlot.main iso_to_datetime
                   (world_with scenario_frame)))).
  reflexivity.
Defined.

(** ** A date column that does not parse *)

Lemma date_span_all_nat (dates : list (option Timestamp)) :
  all_nat dates = true -> Common.date_span dates = None.
Proof.
  intros H. unfold Common.date_span. rewrite H, andb_false_r. reflexivity.
Qed.

(** X16: when the date column is there and none of its entries parses,
    plot_1960_2025.py and download_and_plot.py keep the missing dates,
    plot the whole frame and leave the fixed years in the title, whereas
    extract_rinihue_streamflow.py generates one date per row, a day apart
    from 1960-01-01, whether the frame has more than 20000 rows or not.
    The frame has at most 100000 rows, and every generated date is then
    one pandas holds. *)
Theorem unparsed_date_column
    (to_datetime : Series -> list (option Timestamp))
    (df : DataFrame) (d : string) (s : Series) :
  (Z.of_nat (len df) <= 100000)%Z ->
  getitem df d = Ok s ->
  Common.truthy (Some d) && mem d (column_names df) = true ->
  all_nat (to_datetime s) = true ->
  (Common.process_dates to_datetime df (Some d) = Ok (to_datetime s) /\
   Common.filter_window df (to_datetime s) = (df, to_datetime s) /\
   Common.date_span (to_datetime s) = None) /\
  (exists dates,
     ExtractRinihue.plot_dates to_datetime df (Some d) = Ok dates /\
     daily_from (timestamp 1960 1 1) (len df) dates /\
     forallb representable dates = true).
Proof.
  intros Hn G Ht Hall.
  destruct (generated_representable (len df) Hn) as [H60 _].
  split; [split; [|split]|].
  - unfold Common.process_dates. rewrite Ht, G. reflexivity.
  - unfold Common.filter_window. rewrite Hall. reflexivity.
  - apply date_span_all_nat, Hall.
  - unfold ExtractRinihue.plot_dates. rewrite G. simpl. rewrite Hall.
    eexists; split; [reflexivity | split; [apply date_range_daily|]].
    exact H60.
Qed.

Lemma unparsed_date_column_witness :
  (Common.process_dates iso_to_datetime text_frame (Some "quality")
   = Ok (iso_to_datetime (ObjectSeries [Some "good"])) /\
   Common.filter_window text_frame
     (iso_to_datetime (ObjectSeries [Some "good"]))
   = (text_frame, iso_to_datetime (ObjectSeries [Some "good"])) /\
   Common.date_span (iso_to_datetime (ObjectSeries [Some "good"])) = None) /\
  (exists dates,
     ExtractRinihue.plot_dates iso_to_datetime text_frame (Some "quality")
     = Ok dates /\
     daily_from (timestamp 1960 1 1) (len text_frame) dates /\
     forallb representable dates = true).
Proof.
  apply (unparsed_date_column iso_to_datetime text_frame "quality"
           (ObjectSeries [Some "good"])); try reflexivity.
  vm_compute. discriminate.
Defined.

(** ** The other loaders *)

Ltac failed_calls :=
  repeat (apply Forall_cons; [eexists; eassumption|]); apply Forall_nil.

(** X17: load_data of plot_1960_2025.py calls at most two readers, never
    one for Latin-1, tabs or blanks; a frame it returns is the answer of
    the last reader it called, and when it returns None every reader it
    called has failed.  For a path not ending in .xlsx the only call is the
    comma reader under UTF-8. *)
Theorem plot_load_data_calls (w : World) (filepath : string) :
  let t := fst (Plot19602025.load_data w filepath) in
  let r := snd (Plot19602025.load_data w filepath) in
  length t <= 2 /\
  Forall (fun a => a = ReadCsv comma utf8 \/ exists e, a = ReadExcel e) t /\
  (endswith filepath ".xlsx" = false -> t = [ReadCsv comma utf8]) /\
  (forall df, r = Some df ->
     exists earlier a,
       t = earlier ++ [a] /\ read w a filepath = inl df /\
       Forall (failed w filepath) earlier) /\
  (r = None -> Forall (failed w filepath) t).
Proof.
  unfold Plot19602025.load_data, or_else, try_read.
  destruct (endswith filepath ".xlsx").
  - destruct (read_head w filepath) as [content|].
    + destruct (prefix "{" (lstrip content)).
      * cbn. repeat split; auto; try discriminate.
      * destruct (read w (ReadExcel openpyxl) filepath) eqn:E1;
          [|destruct (read w (ReadExcel default_engine) filepath) eqn:E2];
          cbn; repeat split; auto; try discriminate;
          try (repeat constructor; eauto; fail);
          try (intros _; failed_calls);
          intros ? [= <-].
        -- exists [], (ReadExcel openpyxl). repeat split; auto.
        -- exists [ReadExcel openpyxl], (ReadExcel default_engine).
           repeat split; auto. failed_calls.
    + cbn. repeat split; auto; discriminate.
  - destruct (read w (ReadCsv comma utf8) filepath) eqn:E1;
      cbn; repeat split; auto; try discriminate;
      try (repeat constructor; eauto; fail);
      try (intros _; failed_calls);
      intros ? [= <-].
    exists [], (ReadCsv comma utf8). repeat split; auto.
Qed.

(** A JSON answer saved under the data file name is turned down before any
    reader is called. *)
Example plot_load_data_json :
  Plot19602025.load_data
    (mkWorld (fun _ => true) (fun _ => Some "  {export}")
             (fun _ _ => inl scenario_frame) None (fun _ => true))
    "data/rinihue_streamflow.xlsx"
  = ([], None).
Proof. reflexivity. Qed.

(** X18: on a path ending in .xlsx or .xls, load_data_from_file of
    extract_rinihue_streamflow.py calls Excel readers only, at most two;
    after an ImportError of openpyxl it installs the package and reads
    again with openpyxl, and the default engine is not tried; a frame it
    returns is the answer of the last reader it called. *)
Theorem excel_loader_calls (w : World) (filepath : string) :
  endswith filepath ".xlsx" || endswith filepath ".xls" = true ->
  let t := fst (ExtractRinihue.load_data_from_file w filepath) in
  let r := snd (ExtractRinihue.load_data_from_file w filepath) in
  (t = [ReadExcel openpyxl] \/
   t = [ReadExcel openpyxl; InstallThenReadExcel] \/
   t = [ReadExcel openpyxl; ReadExcel default_engine]) /\
  (read w (ReadExcel openpyxl) filepath = inr ImportError ->
   t = [ReadExcel openpyxl; InstallThenReadExcel] /\
   r = read w InstallThenReadExcel filepath) /\
  (forall df, r = inl df ->
     exists earlier a,
       t = earlier ++ [a] /\ read w a filepath = inl df /\
       Forall (failed w filepath) earlier).
Proof.
  intros H. unfold ExtractRinihue.load_data_from_file, or_else, try_read,
    raise_value_error.
  rewrite H.
  destruct (read w (ReadExcel openpyxl) filepath) as [df0|e0] eqn:E1.
  - cbn. repeat split; auto; try discriminate.
    intros ? [= <-]. exists [], (ReadExcel openpyxl). repeat split; auto.
  - destruct e0;
      try (destruct (read w (ReadExcel default_engine) filepath) eqn:E2;
           cbn; repeat split; auto; try discriminate;
           intros ? [= <-];
           exists [ReadExcel openpyxl], (ReadExcel default_engine);
           repeat split; auto; failed_calls).
    cbn. repeat split; auto.
    intros df Hr. exists [ReadExcel openpyxl], InstallThenReadExcel.
    repeat split; auto. failed_calls.
Qed.

Lemma excel_loader_calls_witness :
  let t := fst (ExtractRinihue.load_data_from_file excel_world "data/q.xlsx") in
  let r := snd (ExtractRinihue.load_data_from_file excel_world "data/q.xlsx") in
  (t = [ReadExcel openpyxl] \/
   t = [ReadExcel openpyxl; InstallThenReadExcel] \/
   t = [ReadExcel openpyxl; ReadExcel default_engine]) /\
  (read excel_world (ReadExcel openpyxl) "data/q.xlsx" = inr ImportError ->
   t = [ReadExcel openpyxl; InstallThenReadExcel] /\
   r = read excel_world InstallThenReadExcel "data/q.xlsx") /\
  (forall df, r = inl df ->
     exists earlier a,
       t = earlier ++ [a] /\ read excel_world a "data/q.xlsx" = inl df /\
       Forall (failed excel_world "data/q.xlsx") earlier).
Proof.
  apply (excel_loader_calls excel_world "data/q.xlsx"). reflexivity.
Defined.

(** ** The two identifiers side by side *)

Lemma find_ext_in {A} (p q : A -> bool) (l : list A) :
  (forall x, In x l -> p x = q x) -> find p l = find q l.
Proof.
  induction l as [|x r IH]; simpl; intros H; auto.
  rewrite (H x) by auto. destruct (q x); auto.
Qed.

Lemma filter_all {A} (p : A -> bool) (l : list A) :
  (forall x, In x l -> p x = true) -> filter p l = l.
Proof.
  induction l as [|x r IH]; simpl; intros H; auto.
  rewrite (H x) by auto. rewrite IH; auto.
Qed.

Lemma date_terms_same (s : string) :
  any_in Plot19602025.date_terms s = any_in DownloadAndPlot.date_terms s.
Proof.
  unfold any_in. simpl.
  destruct (contains "date" s), (contains "time" s), (contains "fecha" s),
    (contains "dia" s); reflexivity.
Qed.

(** X19: on a frame whose column names are no coordinate names and have
    neither "valor" nor "longitud" nor "latitud" in them, identify_columns
    of plot_1960_2025.py and of download_and_plot.py return the same
    columns. *)
Theorem identifiers_agree (df : DataFrame) :
  forallb plain_name (column_names df) = true ->
  Plot19602025.identify_columns df = DownloadAndPlot.identify_columns df.
Proof.
  intros H. rewrite forallb_forall in H.
  assert (Hp : forall x, In x (column_names df) ->
                 contains "valor" (lower x) = false /\
                 contains "longitud" (lower x) = false /\
                 contains "latitud" (lower x) = false /\
                 mem (lower x) Plot19602025.exclude = false).
  { intros x Hx. specialize (H x Hx). unfold plain_name in H.
    repeat (apply andb_true_iff in H as [H ?]).
    repeat split; apply negb_true_iff; assumption. }
  unfold Plot19602025.identify_columns, DownloadAndPlot.identify_columns.
  cbv zeta.
  rewrite (find_ext_in _ (fun col => any_in DownloadAndPlot.date_terms (lower col)))
    by (intros; apply date_terms_same).
  f_equal.
  rewrite (find_ext_in _ (fun col => any_in DownloadAndPlot.flow_terms (lower col))
             (column_names df)).
  2: { intros x Hx. destruct (Hp x Hx) as (Hv & Hlo & Hla & _).
       rewrite Hlo, Hla. unfold any_in. simpl. rewrite Hv.
       rewrite !andb_true_r, !orb_false_r. reflexivity. }
  destruct (find _ (column_names df)); [reflexivity|].
  f_equal. apply filter_all. intros x Hx.
  apply negb_true_iff. apply Hp.
  destruct (find _ (column_names df)) as [d|];
    [destruct (_ && _); [apply In_remove_first in Hx|]|];
    apply In_numeric_columns, Hx.
Qed.

Lemma identifiers_agree_witness :
  Plot19602025.identify_columns scenario_frame
  = DownloadAndPlot.identify_columns scenario_frame.
Proof. apply (identifiers_agree scenario_frame). reflexivity. Defined.

(** ** The frame clean_data returns *)

Lemma rectangular_take_rows (mask : list bool) (df : DataFrame) :
  rectangular df = true -> length mask = len df ->
  rectangular (take_rows mask df) = true.
Proof.
  unfold rectangular. intros Hr Hm.
  rewrite (len_take_rows mask df Hm).
  unfold take_rows; simpl. rewrite forallb_forall in *.
  intros c Hin. apply in_map_iff in Hin as [c0 [<- Hin]]. simpl.
  specialize (Hr c0 Hin). apply Nat.eqb_eq in Hr.
  apply Nat.eqb_eq. apply series_len_select. congruence.
Qed.

(** X20: clean_data returns a well-formed frame when it is given one: after
    rows are dropped every column still has one entry per row, and the
    column names are still unique. *)
Theorem clean_data_well_formed (df df' : DataFrame) (col : string) :
  well_formed df = true ->
  Plot19602025.clean_data df col = Ok df' ->
  well_formed df' = true /\ DownloadAndPlot.clean_data df col = Ok df'.
Proof.
  intros Hw H. rewrite clean_data_same. split; [|exact H].
  pose proof Hw as Hw'. apply andb_true_iff in Hw' as [Hr Hu].
  destruct (getitem df col) as [s|e] eqn:E.
  - rewrite (clean_data_closed df col s E) in H. injection H as <-.
    destruct (0 <? isna_sum s); [|exact Hw].
    pose proof (repairs_repaired s) as Hrep.
    assert (Hlen : series_len (repaired s) = len df).
    { rewrite (repairs_len _ _ Hrep). eapply rectangular_getitem; eauto. }
    unfold well_formed. apply andb_true_iff. split.
    + apply rectangular_take_rows.
      * apply rectangular_setitem; auto.
      * rewrite notna_length. exact Hlen.
    + rewrite column_names_take_rows,
        (column_names_setitem df col s _ E). exact Hu.
  - unfold Plot19602025.clean_data in H. rewrite E in H. discriminate.
Qed.

Lemma clean_data_well_formed_witness :
  well_formed scenario_cleaned = true /\
  DownloadAndPlot.clean_data scenario_frame "caudal_m3s" = Ok scenario_cleaned.
Proof.
  apply (clean_data_well_formed scenario_frame scenario_cleaned "caudal_m3s");
    reflexivity.
Defined.

(** * The cleaned table written and read back *)

(** ** Fields and lines *)














(** ** Rows and columns *)







(** ** Columns by name and by position *)



(** ** Floats written and read back *)



Section RoundTrip.

Variable format_float : Q -> string.
Variable parse_float : string -> option Q.







End RoundTrip.

(** The scenario, cleaned, as it is written, and what is read from it: the
    dates come back as text, the values as the floats they were. *)
Example scenario_text :
  to_csv_text scenario_format scenario_cleaned
  = text_lines [ "fecha,caudal_m3s";
                 "1961-01-01,12.5";
                 "1961-01-02,12.5";
                 "1961-01-03,12.5";
                 "1961-01-04,14.0" ].
Proof. reflexivity. Qed.

Example scenario_read_back :
  read_csv_text scenario_parse
    (to_csv_text scenario_format scenario_cleaned)
  = inl scenario_cleaned.
Proof. reflexivity. Qed.

(** An empty field is a missing entry, and a column with a field that is
    no float is a column of text. *)
Example read_csv_text_missing :
  read_csv_text scenario_parse (text_lines ["a,b"; "12.5,x"; ","])
  = inl (mkFrame [0; 1]
           [ mkColumn "a" (FloatSeries [Some (25 # 2); None]);
             mkColumn "b" (ObjectSeries [Some "x"; None]) ]).
Proof. reflexivity. Qed.

(** A line with more fields than the header does not parse. *)
Example read_csv_text_ragged :
  read_csv_text scenario_parse (text_lines ["a"; "12.5,14.0"])
  = inr ParserError.
Proof. reflexivity. Qed.


